(** * BloomTest: the HyperLiquid order script

    A shallow embedding of [src/server/generate_signature.py].  The script is
    one function, [main], that reads a key from the environment, asks the
    HyperLiquid SDK for the account state and the instrument universe,
    submits one order and prints what it got back.  The embedding starts
    where [main] starts, with the SDK imported; everything the SDK, the
    interpreter and the process environment contribute is a field of the
    record [World].  The second script, [src/server/test_signing.py], calls
    two SDK functions inside two [try] blocks and prints whether they
    raised; it is embedded as [test_signing], over the record [SigningSdk].

    Python objects coming from the SDK are JSON-like, so they are embedded as
    a small inductive [value]; numbers that the script converts with
    [float(...)] are IEEE binary64 and are embedded as Rocq's primitive
    [float].  Printing is a writer effect, raising is an error effect: a run
    is a pair of a [result] and the lines written to standard output. *)

From Stdlib Require Import ZArith List String Ascii Bool Floats Lia.
Import ListNotations.
Open Scope string_scope.
Open Scope list_scope.
Set Warnings "-register-all".

(** ** Python values *)

Inductive value : Type :=
| VNone
| VBool (b : bool)
| VInt (z : Z)
| VFloat (f : float)
| VStr (s : string)
| VList (l : list value)
| VDict (d : list (string * value)).

(** The keys of a [VDict] are taken to be pairwise distinct, as in any Python
    dict; lookups return the first binding. *)
Fixpoint lookup (k : string) (d : list (string * value)) : option value :=
  match d with
  | [] => None
  | (k', v) :: rest => if String.eqb k k' then Some v else lookup k rest
  end.

(** ** Output and exceptions *)

(** A printed line is a sequence of pieces: literal text of the source and
    the renderings that Python performs on a value ([str], [repr],
    the [:.2f] format, [json.dumps]) or on a built-in error. *)
Inductive exn_class : Type :=
| ValueError | KeyError | TypeError | AttributeError | OverflowError
| OtherException (name : string).

Inductive piece : Type :=
| Lit (s : string)
| Str (v : value)
| Repr (v : value)
| Fix2 (f : float)
| Dumps (indent : option nat) (v : value)
| BuiltinMsg (c : exn_class) (operand : value).

Definition text : Type := list piece.

(** Every exception of the model is an instance of a subclass of Python's
    [Exception]; [str(e)] is its [exn_msg]. *)
Record exn : Type := Raised { exn_cls : exn_class; exn_msg : text }.

Inductive result (A : Type) : Type :=
| Ok (a : A)
| Raise (e : exn).
Arguments Ok {A} a.
Arguments Raise {A} e.

(** A computation that may print and may raise. *)
Definition M (A : Type) : Type := (result A * list text)%type.

Definition ret {A} (a : A) : M A := (Ok a, []).

Definition bind {A B} (m : M A) (f : A -> M B) : M B :=
  match m with
  | (Ok a, out) => let (r, out') := f a in (r, out ++ out')
  | (Raise e, out) => (Raise e, out)
  end.

Definition raise {A} (e : exn) : M A := (Raise e, []).

Definition print (t : text) : M unit := (Ok tt, [t]).

Definition lift {A} (r : result A) : M A := (r, []).

(** [try: body / except Exception as e: handler e] *)
Definition try_except {A} (body : M A) (handler : exn -> M A) : M A :=
  match body with
  | (Ok a, out) => (Ok a, out)
  | (Raise e, out) => let (r, out') := handler e in (r, out ++ out')
  end.

Declare Scope py_scope.
Delimit Scope py_scope with py.
Notation "x <- m ;; k" := (bind m (fun x => k))
  (at level 61, m at next level, right associativity) : py_scope.
Notation "m ;; k" := (bind m (fun _ => k))
  (at level 61, right associativity) : py_scope.
Open Scope py_scope.

Definition stdout {A} (m : M A) : list text := snd m.
Definition outcome {A} (m : M A) : result A := fst m.

(** The interpreter's exit status: 0 on normal completion, 1 when an
    exception reaches the top level. *)
Definition exit_code (m : M unit) : Z :=
  match outcome m with
  | Ok _ => 0
  | Raise _ => 1
  end.

(** ** Built-in operations used by the script *)

Definition truthy (v : value) : bool :=
  match v with
  | VNone => false
  | VBool b => b
  | VInt z => negb (Z.eqb z 0)
  | VFloat f => negb (PrimFloat.eqb f 0)
  | VStr s => negb (String.eqb s "")
  | VList l => match l with [] => false | _ => true end
  | VDict d => match d with [] => false | _ => true end
  end.

Definition builtin_error {A} (c : exn_class) (operand : value) : result A :=
  Raise (Raised c [BuiltinMsg c operand]).

(** [v.get(k, default)] *)
Definition py_get (v : value) (k : string) (default : value) : result value :=
  match v with
  | VDict d => match lookup k d with
               | Some x => Ok x
               | None => Ok default
               end
  | _ => builtin_error AttributeError v
  end.

(** [v[k]] for a string [k] *)
Definition py_getitem (v : value) (k : string) : result value :=
  match v with
  | VDict d => match lookup k d with
               | Some x => Ok x
               | None => Raise (Raised KeyError [Repr (VStr k)])
               end
  | _ => builtin_error TypeError v
  end.

(** [v == s] for a string [s] *)
Definition py_eq_str (v : value) (s : string) : bool :=
  match v with
  | VStr t => String.eqb t s
  | _ => false
  end.

Fixpoint chars (s : string) : list value :=
  match s with
  | EmptyString => []
  | String c rest => VStr (String c EmptyString) :: chars rest
  end.

(** The sequence a [for] loop runs over. *)
Definition py_iter (v : value) : result (list value) :=
  match v with
  | VList l => Ok l
  | VDict d => Ok (map (fun kv => VStr (fst kv)) d)
  | VStr s => Ok (chars s)
  | _ => builtin_error TypeError v
  end.

Fixpoint is_substring (s t : string) : bool :=
  prefix s t ||
  match t with
  | EmptyString => false
  | String _ rest => is_substring s rest
  end.

(** [k in v] for a string [k] *)
Definition py_in (k : string) (v : value) : result bool :=
  match v with
  | VDict d => Ok (match lookup k d with Some _ => true | None => false end)
  | VList l => Ok (existsb (fun x => py_eq_str x k) l)
  | VStr s => Ok (is_substring k s)
  | _ => builtin_error TypeError v
  end.

(** Conversion of a Python int to binary64, round to nearest even. *)
Definition float_of_Z (z : Z) : float :=
  SF2Prim (binary_normalize prec emax z 0 false).

(** ** The world outside the script *)

Record Wallet : Type := { address : string }.

Record World : Type := {
  (* interpreter: parsing and printing of floats *)
  float_of_str : string -> option float;
  str_of_float : float -> string;
  (* os.getenv("PRIVATE_KEY") *)
  getenv_PRIVATE_KEY : option string;
  (* eth_account.Account.from_key *)
  from_key : string -> result Wallet;
  (* hyperliquid.info.Info(...), .user_state(address), .meta() *)
  info_init : result unit;
  info_user_state : string -> result value;
  info_meta : result value;
  (* hyperliquid.exchange.Exchange(wallet, ..., vault_address), .order(...) *)
  exchange_init : Wallet -> option string -> result unit;
  exchange_order :
    Wallet -> option string ->
    string -> bool -> float -> float -> value -> bool -> result value
}.

(** [float(v)] *)
Definition py_float (w : World) (v : value) : result float :=
  match v with
  | VFloat f => Ok f
  | VInt z =>
      let f := float_of_Z z in
      if PrimFloat.is_infinity f then builtin_error OverflowError v else Ok f
  | VBool b => Ok (if b then 1%float else 0%float)
  | VStr s =>
      match float_of_str w s with
      | Some f => Ok f
      | None => builtin_error ValueError v
      end
  | _ => builtin_error TypeError v
  end.

(** ** Order configuration (lines 47-60) *)

Record OrderConfig : Type := {
  coin : string;
  is_buy : bool;
  sz : float;
  limit_px : float;
  reduce_only : bool;
  order_type : value;
  vault_address : option string
}.

Definition limit_order (tif : string) : value :=
  VDict [("limit", VDict [("tif", VStr tif)])].

Definition market_order : value := VDict [("market", VDict [])].

Definition ORDER_CONFIG : OrderConfig := {|
  coin := "HYPE";
  is_buy := true;
  sz := 0x1.999999999999ap-2%float;    (* 0.4 *)
  limit_px := 0x1.18ac083126e98p+5%float;  (* 35.084 *)
  reduce_only := false;
  order_type := limit_order "Ioc";
  vault_address := None
|}.

(** ** Credential loading (lines 72-83) *)

Definition startswith_0x (s : string) : bool := prefix "0x" s.

(** [s[2:]] *)
Definition drop2 (s : string) : string :=
  match s with
  | String _ (String _ rest) => rest
  | _ => EmptyString
  end.

Definition load_wallet (w : World) (env : option string) : result Wallet :=
  match env with
  | None => Raise (Raised ValueError [Lit "PRIVATE_KEY environment variable not set"])
  | Some private_key =>
      if negb (truthy (VStr private_key))
      then Raise (Raised ValueError [Lit "PRIVATE_KEY environment variable not set"])
      else
        let private_key :=
          if startswith_0x private_key then drop2 private_key else private_key in
        from_key w ("0x" ++ private_key)%string
  end.

(** ** Account inspection (lines 96-118) *)

Definition line_cross_margin : text := [Lit "   Margin Mode: CROSS MARGIN"].

Definition line_isolated_margin : text :=
  [Lit "   Margin Mode: ISOLATED MARGIN (or no positions)"].

(** Lines 99-106: the margin figures. *)
Definition report_margin (w : World) (user_state : value) : M unit :=
  margin_summary <- lift (py_get user_state "marginSummary" (VDict [])) ;;
  account_value_raw <- lift (py_get margin_summary "accountValue" (VInt 0)) ;;
  account_value <- lift (py_float w account_value_raw) ;;
  margin_used_raw <- lift (py_get margin_summary "totalMarginUsed" (VInt 0)) ;;
  margin_used <- lift (py_float w margin_used_raw) ;;
  let free_collateral := (account_value - margin_used)%float in
  print [Lit "   Account Value: $"; Fix2 account_value] ;;
  print [Lit "   Margin Used: $"; Fix2 margin_used] ;;
  print [Lit "   Free Collateral: $"; Fix2 free_collateral].

(** Lines 108-114: the margin mode. *)
Definition report_margin_mode (w : World) (user_state : value) : M unit :=
  cross_margin <- lift (py_get user_state "crossMarginSummary" (VDict [])) ;;
  if truthy cross_margin then
    print line_cross_margin ;;
    cross_value_raw <- lift (py_get cross_margin "accountValue" (VInt 0)) ;;
    cross_value <- lift (py_float w cross_value_raw) ;;
    print [Lit "   Cross Margin Value: $"; Fix2 cross_value]
  else
    print line_isolated_margin.

(** The body of the [try] block, lines 98-115. *)
Definition check_account_state (w : World) (wallet_address : string) : M unit :=
  user_state <- lift (info_user_state w wallet_address) ;;
  report_margin w user_state ;;
  report_margin_mode w user_state ;;
  print [].

Definition line_warning (e : exn) : text :=
  Lit "   ⚠️  Could not check account state: " :: exn_msg e.

Definition warn_account_state (e : exn) : M unit :=
  print (line_warning e) ;;
  print [].

Definition line_checking : text := [Lit "💰 Checking Account State..."].

Definition inspect_account (w : World) (wallet_address : string) : M unit :=
  print line_checking ;;
  try_except (check_account_state w wallet_address) warn_account_state.

(** ** Asset resolution (lines 120-136) *)

Definition err_no_meta : exn :=
  Raised ValueError [Lit "Failed to get meta from HyperLiquid"].

Definition err_asset_not_found (symbol : string) : exn :=
  Raised ValueError [Lit "Asset "; Lit symbol; Lit " not found in universe"].

(** The [for idx, asset in enumerate(...)] loop with its [break]. *)
Fixpoint scan_universe (symbol : string) (universe : list value) (idx : nat)
  : result (option nat) :=
  match universe with
  | [] => Ok None
  | asset :: rest =>
      match py_getitem asset "name" with
      | Raise e => Raise e
      | Ok name =>
          if py_eq_str name symbol then Ok (Some idx)
          else scan_universe symbol rest (S idx)
      end
  end.

(** Lines 123-133, on the value returned by [info.meta()]. *)
Definition find_asset_id (symbol : string) (meta : value) : result nat :=
  if negb (truthy meta) then Raise err_no_meta
  else
    match py_getitem meta "universe" with
    | Raise e => Raise e
    | Ok universe =>
        match py_iter universe with
        | Raise e => Raise e
        | Ok assets =>
            match scan_universe symbol assets 0 with
            | Raise e => Raise e
            | Ok None => Raise (err_asset_not_found symbol)
            | Ok (Some asset_id) => Ok asset_id
            end
        end
    end.

Definition resolve_asset (cfg : OrderConfig) (w : World) : M nat :=
  print [Lit "🔍 Getting Asset ID..."] ;;
  meta <- lift (info_meta w) ;;
  asset_id <- lift (find_asset_id (coin cfg) meta) ;;
  print [Lit "   Asset: "; Lit (coin cfg); Lit " (Asset ID: ";
         Str (VInt (Z.of_nat asset_id)); Lit ")"] ;;
  print [] ;;
  ret asset_id.

(** ** Order display and order-type classification (lines 138-163) *)

Definition build_order (cfg : OrderConfig) (w : World) (asset_id : nat) : value :=
  VDict [("a", VInt (Z.of_nat asset_id));
         ("b", VBool (is_buy cfg));
         ("p", VStr (str_of_float w (limit_px cfg)));
         ("s", VStr (str_of_float w (sz cfg)));
         ("r", VBool (reduce_only cfg));
         ("t", order_type cfg)].

Definition label_ioc : text :=
  [Lit "   → IOC: Executes immediately or cancels (requires less margin)"].
Definition label_gtc : text :=
  [Lit "   → GTC: Stays on order book until filled or canceled (requires more margin)"].
Definition label_alo : text :=
  [Lit "   → ALO: Post Only - adds liquidity, gets maker rebate (requires less margin)"].
Definition label_market : text :=
  [Lit "   → Market: Executes at best available price immediately"].

(** [order_type.get("limit", {}).get("tif") == tif] *)
Definition tif_is (order_type : value) (tif : string) : result bool :=
  match py_get order_type "limit" (VDict []) with
  | Raise e => Raise e
  | Ok limit =>
      match py_get limit "tif" VNone with
      | Raise e => Raise e
      | Ok t => Ok (py_eq_str t tif)
      end
  end.

(** The [if]/[elif] chain of lines 155-162. *)
Definition classify_order_type (order_type : value) : M unit :=
  ioc <- lift (tif_is order_type "Ioc") ;;
  if ioc then print label_ioc
  else
    gtc <- lift (tif_is order_type "Gtc") ;;
    if gtc then print label_gtc
    else
      alo <- lift (tif_is order_type "Alo") ;;
      if alo then print label_alo
      else
        market <- lift (py_get order_type "market" VNone) ;;
        if truthy market then print label_market
        else ret tt.

Definition show_order (cfg : OrderConfig) (w : World) (asset_id : nat) : M unit :=
  let order := build_order cfg w asset_id in
  print [Lit "📋 Order Details:"] ;;
  print [Lit "   "; Dumps (Some 2%nat) order] ;;
  print [] ;;
  print [Lit "📌 Order Type: "; Dumps None (order_type cfg)] ;;
  classify_order_type (order_type cfg) ;;
  print [].

(** ** Interpreting the submission result (lines 181-204) *)

Definition report_status (i : nat) (status : value) : M unit :=
  let order_i := [Lit "   Order "; Str (VInt (Z.of_nat i))] in
  resting <- lift (py_in "resting" status) ;;
  if resting then
    r <- lift (py_getitem status "resting") ;;
    oid <- lift (py_get r "oid" (VStr "N/A")) ;;
    print (order_i ++ [Lit ": Resting (Order ID: "; Str oid; Lit ")"])
  else
    filled <- lift (py_in "filled" status) ;;
    if filled then print (order_i ++ [Lit ": Filled!"])
    else
      error <- lift (py_in "error" status) ;;
      if error then
        e <- lift (py_getitem status "error") ;;
        print (order_i ++ [Lit ": Error - "; Str e])
      else ret tt.

Fixpoint report_statuses (statuses : list value) (i : nat) : M unit :=
  match statuses with
  | [] => ret tt
  | status :: rest => report_status i status ;; report_statuses rest (S i)
  end.

Definition report_placed (result : value) : M unit :=
  print [Lit "✅ ORDER PLACED SUCCESSFULLY!"] ;;
  has_response <- lift (py_in "response" result) ;;
  has_data <-
    (if has_response : bool then
       response <- lift (py_getitem result "response") ;;
       lift (py_in "data" response)
     else ret false) ;;
  if has_data : bool then
    response <- lift (py_getitem result "response") ;;
    data <- lift (py_getitem response "data") ;;
    statuses <- lift (py_get data "statuses" (VList [])) ;;
    items <- lift (py_iter statuses) ;;
    report_statuses items 0
  else ret tt.

Definition report_failed (result : value) : M unit :=
  print [Lit "❌ ORDER FAILED"] ;;
  response <- lift (py_get result "response" (VStr "Unknown error")) ;;
  print [Lit "   Response: "; Str response].

Definition report_result (result : value) : M unit :=
  print [Lit "═══════════════════════════════════════════════════════════"] ;;
  print [Lit "📤 SDK RESPONSE:"] ;;
  print [Lit "═══════════════════════════════════════════════════════════"] ;;
  print [Dumps (Some 2%nat) result] ;;
  print [] ;;
  status <- lift (py_get result "status" VNone) ;;
  (if py_eq_str status "ok" then report_placed result
   else report_failed result) ;;
  print [] ;;
  print [Lit "💡 Note: The SDK handled all the complexity automatically!"] ;;
  print [Lit "   No manual signature generation needed."].

(** ** [main] (lines 66-204) *)

Definition submit_order (cfg : OrderConfig) (w : World) (wallet : Wallet) : M value :=
  print [Lit "🔐 SDK is handling signing and request formatting..."] ;;
  print [Lit "   (The SDK handles: msgpack encoding, EIP-712 signing, field ordering, etc.)"] ;;
  print [] ;;
  lift (exchange_order w wallet (vault_address cfg)
          (coin cfg) (is_buy cfg) (sz cfg) (limit_px cfg) (order_type cfg)
          (reduce_only cfg)).

(** Everything after the account inspection: lines 120-204. *)
Definition after_inspection (cfg : OrderConfig) (w : World) (wallet : Wallet)
  : M unit :=
  asset_id <- resolve_asset cfg w ;;
  show_order cfg w asset_id ;;
  result <- submit_order cfg w wallet ;;
  report_result result.

(** Lines 67-93: banner, credentials and SDK clients. *)
Definition setup (cfg : OrderConfig) (w : World) : M Wallet :=
  print [Lit "╔══════════════════════════════════════════════════════════╗"] ;;
  print [Lit "║   HYPERLIQUID SIGNATURE GENERATOR (FULL SDK)            ║"] ;;
  print [Lit "╚══════════════════════════════════════════════════════════╝"] ;;
  print [] ;;
  wallet <- lift (load_wallet w (getenv_PRIVATE_KEY w)) ;;
  print [Lit "✅ Wallet address: "; Lit (address wallet)] ;;
  print [] ;;
  print [Lit "📡 Initializing HyperLiquid SDK..."] ;;
  lift (info_init w) ;;
  lift (exchange_init w wallet (vault_address cfg)) ;;
  print [Lit "✅ SDK initialized"] ;;
  print [] ;;
  ret wallet.

Definition main (cfg : OrderConfig) (w : World) : M unit :=
  wallet <- setup cfg w ;;
  inspect_account w (address wallet) ;;
  after_inspection cfg w wallet.

(** ** Vocabulary of the specification *)

Definition is_hex_digit (c : ascii) : bool :=
  let n := nat_of_ascii c in
  ((48 <=? n) && (n <=? 57) || (65 <=? n) && (n <=? 70)
   || (97 <=? n) && (n <=? 102))%nat.

(** A well-formed private key: 32 bytes written as 64 hex digits. *)
Definition well_formed_hex_key (k : string) : bool :=
  (String.length k =? 64)%nat && forallb is_hex_digit (list_ascii_of_string k).

(** A named asset descriptor: an object with a ["name"] field. *)
Definition has_name (asset : value) : bool :=
  match asset with
  | VDict d => match lookup "name" d with Some _ => true | None => false end
  | _ => false
  end.

(** The descriptor's name equals the symbol. *)
Definition name_is (symbol : string) (asset : value) : bool :=
  match asset with
  | VDict d => match lookup "name" d with
               | Some (VStr n) => String.eqb n symbol
               | _ => false
               end
  | _ => false
  end.

(** Position [i] holds the first descriptor named [symbol]. *)
Definition first_match (symbol : string) (assets : list value) (i : nat) : Prop :=
  (exists a, nth_error assets i = Some a /\ name_is symbol a = true) /\
  (forall j a, (j < i)%nat -> nth_error assets j = Some a ->
               name_is symbol a = false).

(** The instrument universe carried by a meta object. *)
Definition universe_of (meta : value) : list value :=
  match meta with
  | VDict d => match lookup "universe" d with
               | Some (VList assets) => assets
               | _ => []
               end
  | _ => []
  end.

(** What [info.meta()] is declared to return, together with the two empty
    answers that line 123 guards against: [None], [{}], or an object whose
    ["universe"] is a list of named descriptors. *)
Definition well_formed_meta (meta : value) : bool :=
  match meta with
  | VNone => true
  | VDict [] => true
  | VDict d => match lookup "universe" d with
               | Some (VList assets) => forallb has_name assets
               | _ => false
               end
  | _ => false
  end.

(** The cross-margin summary of a snapshot, when present, is an object. *)
Definition cross_summary_is_object (us : list (string * value)) : bool :=
  match lookup "crossMarginSummary" us with
  | None | Some (VDict _) => true
  | Some _ => false
  end.

(** The cross-margin summary is present and has at least one field. *)
Definition cross_summary_nonempty (us : list (string * value)) : bool :=
  match lookup "crossMarginSummary" us with
  | Some (VDict (_ :: _)) => true
  | _ => false
  end.

(** The three lines of the margin report. *)
Definition margin_lines (account_value margin_used free_collateral : float)
  : list text :=
  [[Lit "   Account Value: $"; Fix2 account_value];
   [Lit "   Margin Used: $"; Fix2 margin_used];
   [Lit "   Free Collateral: $"; Fix2 free_collateral]].

(** The response a failed submission carries, or the script's placeholder. *)
Definition response_of (d : list (string * value)) : value :=
  match lookup "response" d with
  | Some r => r
  | None => VStr "Unknown error"
  end.

(** The answer [{"universe": []}] of [info.meta()]. *)
Definition empty_universe_meta : value := VDict [("universe", VList [])].

(** ** A concrete world, for running the model

    The key is the one of [test_signing.py]; the address derivation is a
    stand-in that keeps the key text, so that distinct keys are visibly
    distinct. *)

Definition sample_key : string :=
  "1111111111111111111111111111111111111111111111111111111111111111".

Definition sample_user_state : value :=
  VDict [("marginSummary",
          VDict [("accountValue", VFloat 100); ("totalMarginUsed", VFloat 25)]);
         ("crossMarginSummary", VDict [("accountValue", VFloat 100)])].

Definition sample_meta : value :=
  VDict [("universe",
          VList [VDict [("name", VStr "BTC")]; VDict [("name", VStr "ETH")];
                 VDict [("name", VStr "HYPE")]])].

Definition sample_rejection : list (string * value) :=
  [("status", VStr "err"); ("response", VStr "Insufficient margin")].

Definition sample_world : World := {|
  float_of_str := fun _ => None;
  str_of_float := fun _ => "";
  getenv_PRIVATE_KEY := Some sample_key;
  from_key := fun k => Ok {| address := k |};
  info_init := Ok tt;
  info_user_state := fun _ => Ok sample_user_state;
  info_meta := Ok sample_meta;
  exchange_init := fun _ _ => Ok tt;
  exchange_order := fun _ _ _ _ _ _ _ _ => Ok (VDict sample_rejection)
|}.

Definition sample_wallet : Wallet := {| address := "0x" ++ sample_key |}.

Definition connection_refused : exn :=
  Raised (OtherException "ConnectionError") [Lit "connection refused"].

(** The same world with the account-state query failing. *)
Definition offline_account_world : World := {|
  float_of_str := float_of_str sample_world;
  str_of_float := str_of_float sample_world;
  getenv_PRIVATE_KEY := getenv_PRIVATE_KEY sample_world;
  from_key := from_key sample_world;
  info_init := info_init sample_world;
  info_user_state := fun _ => Raise connection_refused;
  info_meta := info_meta sample_world;
  exchange_init := exchange_init sample_world;
  exchange_order := exchange_order sample_world
|}.

(** ** The signing smoke test ([src/server/test_signing.py])

    The script derives a wallet, then runs two [try] blocks, one per way of
    writing "no vault address" ([None] and the empty string).  The SDK
    functions it calls are fields of [SigningSdk]. *)

Record SigningSdk : Type := {
  (* eth_account.Account.from_key *)
  signing_from_key : string -> result Wallet;
  (* hyperliquid.utils.signing.sign_l1_action(wallet, action, vault, nonce,
     expires_after, is_mainnet) *)
  sign_l1_action : Wallet -> value -> value -> Z -> Z -> bool -> result value;
  (* hyperliquid.utils.signing.action_hash(action, vault, nonce,
     expires_after), a [bytes] object *)
  action_hash : value -> value -> Z -> Z -> result (list Byte.byte)
}.

(** Lines 5-16. *)
Definition action : value :=
  VDict [("type", VStr "order");
         ("orders",
          VList [VDict [("a", VInt 0); ("b", VBool true); ("p", VStr "100");
                        ("s", VStr "0.1"); ("r", VBool false);
                        ("t", limit_order "Gtc")]]);
         ("grouping", VStr "na")].

Definition hex_digit (n : N) : ascii :=
  match n with
  | 0%N => "0" | 1%N => "1" | 2%N => "2" | 3%N => "3"
  | 4%N => "4" | 5%N => "5" | 6%N => "6" | 7%N => "7"
  | 8%N => "8" | 9%N => "9" | 10%N => "a" | 11%N => "b"
  | 12%N => "c" | 13%N => "d" | 14%N => "e" | _ => "f"
  end%char.

Definition hex_of_byte (b : Byte.byte) : string :=
  let n := N_of_ascii (ascii_of_byte b) in
  String (hex_digit (n / 16)) (String (hex_digit (n mod 16)) EmptyString).

(** [bytes.hex()] *)
Fixpoint hex (bs : list Byte.byte) : string :=
  match bs with
  | [] => EmptyString
  | b :: rest => (hex_of_byte b ++ hex rest)%string
  end.

(** Reading two hex digits back, the inverse of [hex_of_byte]. *)
Definition unhex_digit (c : ascii) : option N :=
  let n := N_of_ascii c in
  if ((48 <=? n) && (n <=? 57))%N then Some (n - 48)%N
  else if ((97 <=? n) && (n <=? 102))%N then Some (n - 87)%N
  else None.

Definition byte_of_hex (hi lo : ascii) : option Byte.byte :=
  match unhex_digit hi, unhex_digit lo with
  | Some h, Some l => Some (byte_of_ascii (ascii_of_N (16 * h + l)))
  | _, _ => None
  end.

(** [h.hex()[:20]] *)
Definition hash_prefix (h : list Byte.byte) : string := substring 0 20 (hex h).

(** The double-quote character of the second hash line. *)
Definition dquote : string := String "034"%char EmptyString.

Record VariantText : Type := {
  works_line : text;
  hash_label : string;
  failed_label : string
}.


(** Lines 29-32. *)
Definition empty_text : VariantText := {|
  works_line := [Lit "✅ Empty string works"];
  hash_label := ("   Hash with " ++ dquote ++ dquote ++ ": ")%string;
  failed_label := "❌ Empty string failed: "
|}.

Definition hash_line (t : VariantText) (h : list Byte.byte) : text :=
  [Lit (hash_label t); Lit (hash_prefix h); Lit "..."].

Definition failed_line (t : VariantText) (e : exn) : text :=
  Lit (failed_label t) :: exn_msg e.

(** One [try] block: lines 19-24 with [None], lines 27-32 with [''] *)
Definition test_variant (sdk : SigningSdk) (wallet : Wallet)
  (t : VariantText) (vault : value) : M unit :=
  try_except
    (lift (sign_l1_action sdk wallet action vault 1000 2000 true) ;;
     print (works_line t) ;;
     h <- lift (action_hash sdk action vault 1000 2000) ;;
     print (hash_line t h))
    (fun e => print (failed_line t e)).


(** ** Vocabulary of the further properties *)

(** Lines 67-70. *)
Definition banner : list text :=
  [[Lit "╔══════════════════════════════════════════════════════════╗"];
   [Lit "║   HYPERLIQUID SIGNATURE GENERATOR (FULL SDK)            ║"];
   [Lit "╚══════════════════════════════════════════════════════════╝"];
   []].

Definition err_no_key : exn :=
  Raised ValueError [Lit "PRIVATE_KEY environment variable not set"].

(** The same world with another exchange client behind [exchange.order]. *)
Definition with_exchange_order (w : World)
  (order :
     Wallet -> option string ->
     string -> bool -> float -> float -> value -> bool -> result value)
  : World := {|
  float_of_str := float_of_str w;
  str_of_float := str_of_float w;
  getenv_PRIVATE_KEY := getenv_PRIVATE_KEY w;
  from_key := from_key w;
  info_init := info_init w;
  info_user_state := info_user_state w;
  info_meta := info_meta w;
  exchange_init := exchange_init w;
  exchange_order := order
|}.

Definition is_dict (v : value) : bool :=
  match v with VDict _ => true | _ => false end.

(** A line that starts like the warning of line 117. *)
Definition is_warning (t : text) : bool :=
  match t with
  | Lit s :: _ => String.eqb s "   ⚠️  Could not check account state: "
  | _ => false
  end.

(** An order type on which lines 155-161 raise nothing: an object whose
    ["limit"], when present, is an object. *)
Definition order_type_shape_ok (order_type : value) : bool :=
  match order_type with
  | VDict d => match lookup "limit" d with
               | None | Some (VDict _) => true
               | Some _ => false
               end
  | _ => false
  end.

(** [order_type.get("limit", {}).get("tif")] of such an order type. *)
Definition tif_of (d : list (string * value)) : value :=
  match lookup "limit" d with
  | Some (VDict l) => match lookup "tif" l with Some t => t | None => VNone end
  | _ => VNone
  end.

Definition known_tif (t : value) : bool :=
  py_eq_str t "Ioc" || py_eq_str t "Gtc" || py_eq_str t "Alo".

(** A per-order status that lines 192-197 read without an error: an object
    whose ["resting"], when present, is an object. *)
Definition well_formed_status (status : value) : bool :=
  match status with
  | VDict d => match lookup "resting" d with
               | None | Some (VDict _) => true
               | Some _ => false
               end
  | _ => false
  end.

Definition line_placed : text := [Lit "✅ ORDER PLACED SUCCESSFULLY!"].
Definition line_failed : text := [Lit "❌ ORDER FAILED"].

(** Lines 181-185. *)
Definition response_header (result : value) : list text :=
  [[Lit "═══════════════════════════════════════════════════════════"];
   [Lit "📤 SDK RESPONSE:"];
   [Lit "═══════════════════════════════════════════════════════════"];
   [Dumps (Some 2%nat) result];
   []].

(** Line 112. *)
Definition cross_value_line (f : float) : text :=
  [Lit "   Cross Margin Value: $"; Fix2 f].

(** Lines 166-168. *)
Definition submission_notice : list text :=
  [[Lit "🔐 SDK is handling signing and request formatting..."];
   [Lit "   (The SDK handles: msgpack encoding, EIP-712 signing, field ordering, etc.)"];
   []].

(** Lines 202-204. *)
Definition closing_note : list text :=
  [[];
   [Lit "💡 Note: The SDK handled all the complexity automatically!"];
   [Lit "   No manual signature generation needed."]].

(** ** Further concrete worlds *)

Definition keyless_world : World := {|
  float_of_str := float_of_str sample_world;
  str_of_float := str_of_float sample_world;
  getenv_PRIVATE_KEY := None;
  from_key := from_key sample_world;
  info_init := info_init sample_world;
  info_user_state := info_user_state sample_world;
  info_meta := info_meta sample_world;
  exchange_init := exchange_init sample_world;
  exchange_order := exchange_order sample_world
|}.

Definition world_with (user_state : result value) (meta : result value)
  (order : result value) : World := {|
  float_of_str := float_of_str sample_world;
  str_of_float := str_of_float sample_world;
  getenv_PRIVATE_KEY := getenv_PRIVATE_KEY sample_world;
  from_key := from_key sample_world;
  info_init := info_init sample_world;
  info_user_state := fun _ => user_state;
  info_meta := meta;
  exchange_init := exchange_init sample_world;
  exchange_order := fun _ _ _ _ _ _ _ _ => order
|}.

Definition sample_filled : list (string * value) :=
  [("status", VStr "ok");
   ("response",
    VDict [("type", VStr "order");
           ("data",
            VDict [("statuses",
                    VList [VDict [("filled", VDict [("oid", VInt 77)])];
                           VDict [("resting", VDict [("oid", VInt 78)])];
                           VDict [("error", VStr "Order too small")]])])])].

Definition sample_hash : list Byte.byte :=
  [Byte.xde; Byte.xad; Byte.xbe; Byte.xef; Byte.x00; Byte.x01; Byte.x02;
   Byte.x03; Byte.x04; Byte.x05; Byte.x06; Byte.x07].

Definition sample_sdk : SigningSdk := {|
  signing_from_key := fun k => Ok {| address := k |};
  sign_l1_action := fun _ _ _ _ _ _ => Ok (VDict [("r", VStr "0x1")]);
  action_hash := fun _ vault _ _ =>
    match vault with
    | VNone => Ok sample_hash
    | _ => Raise (Raised ValueError [Lit "invalid address"])
    end
|}.

(** * Properties *)

(** ** Running binds *)

Lemma bind_lift_ok {A B} (a : A) (f : A -> M B) : bind (lift (Ok a)) f = f a.
Proof. unfold bind, lift. now destruct (f a). Qed.

Lemma bind_lift_raise {A B} (e : exn) (f : A -> M B) :
  bind (lift (Raise e)) f = (Raise e, []).
Proof. reflexivity. Qed.

Lemma bind_print {B} (t : text) (f : unit -> M B) :
  bind (print t) f = (outcome (f tt), t :: stdout (f tt)).
Proof. unfold bind, print. now destruct (f tt). Qed.

Lemma bind_run_ok {A B} (m : M A) (f : A -> M B) (a : A) (out : list text) :
  m = (Ok a, out) -> bind m f = (outcome (f a), out ++ stdout (f a)).
Proof. intros ->. unfold bind. now destruct (f a). Qed.

Lemma bind_run_raise {A B} (m : M A) (f : A -> M B) (e : exn) (out : list text) :
  m = (Raise e, out) -> bind m f = (Raise e, out).
Proof. now intros ->. Qed.

Lemma run_eta {A} (m : M A) : m = (outcome m, stdout m).
Proof. now destruct m. Qed.

Lemma outcome_bind {A B} (m : M A) (f : A -> M B) :
  outcome (bind m f)
  = match outcome m with Ok a => outcome (f a) | Raise e => Raise e end.
Proof. destruct m as [[a|e] out]; cbn; [now destruct (f a)|reflexivity]. Qed.

Lemma stdout_bind {A B} (m : M A) (f : A -> M B) :
  stdout (bind m f)
  = stdout m ++ match outcome m with Ok a => stdout (f a) | Raise _ => [] end.
Proof.
  destruct m as [[a|e] out]; cbn; [now destruct (f a)|now rewrite app_nil_r].
Qed.

Section Credentials.
Variable w : World.

Lemma load_wallet_bare (k : string) :
  k <> "" -> startswith_0x k = false ->
  load_wallet w (Some k) = from_key w ("0x" ++ k)%string.
Proof.
  intros Hne Hpre. unfold load_wallet. rewrite Hpre.
  destruct k as [|c k]; [congruence|]. reflexivity.
Qed.

Lemma load_wallet_prefixed (k : string) :
  load_wallet w (Some ("0x" ++ k)%string) = from_key w ("0x" ++ k)%string.
Proof.
  assert (Hpre : startswith_0x ("0x" ++ k)%string = true)
    by (destruct k; reflexivity).
  unfold load_wallet. rewrite Hpre. reflexivity.
Qed.

Lemma hex_key_bare (k : string) :
  well_formed_hex_key k = true -> k <> "" /\ startswith_0x k = false.
Proof.
  unfold well_formed_hex_key. intros H.
  apply andb_true_iff in H as [Hlen Hhex].
  destruct k as [|a [|b k]]; try discriminate.
  split; [discriminate|].
  cbn [list_ascii_of_string forallb] in Hhex.
  apply andb_true_iff in Hhex as [_ Hhex].
  apply andb_true_iff in Hhex as [Hb _].
  unfold startswith_0x. cbn [prefix].
  destruct (ascii_dec "0" a); [|reflexivity].
  destruct (ascii_dec "x" b) as [<-|]; [discriminate Hb|reflexivity].
Qed.

(** C3: for a well-formed hex key [k], loading the credentials from [k]
    and from ["0x" ++ k] gives the same result of the wallet derivation,
    hence the same wallet address. *)
Theorem C3_prefix_irrelevant (k : string) :
  well_formed_hex_key k = true ->
  load_wallet w (Some k) = load_wallet w (Some ("0x" ++ k)%string).
Proof.
  intros H. destruct (hex_key_bare k H) as [Hne Hpre].
  rewrite load_wallet_prefixed. now apply load_wallet_bare.
Qed.

End Credentials.

Lemma C3_prefix_irrelevant_witness :
  well_formed_hex_key sample_key = true /\
  load_wallet sample_world (Some sample_key)
  = load_wallet sample_world (Some ("0x" ++ sample_key)%string).
Proof.
  split; [reflexivity|].
  apply (C3_prefix_irrelevant sample_world sample_key). reflexivity.
Defined.

Section AssetResolution.
Variable symbol : string.

Lemma scan_universe_step (asset : value) (rest : list value) (idx : nat) :
  has_name asset = true ->
  scan_universe symbol (asset :: rest) idx
  = if name_is symbol asset then Ok (Some idx)
    else scan_universe symbol rest (S idx).
Proof.
  destruct asset as [| | | | | |d]; try discriminate.
  cbn. destruct (lookup "name" d) as [n|]; [|discriminate].
  intros _. destruct n; reflexivity.
Qed.

Lemma scan_universe_no_match (assets : list value) (idx : nat) :
  forallb has_name assets = true ->
  existsb (name_is symbol) assets = false ->
  scan_universe symbol assets idx = Ok None.
Proof.
  revert idx. induction assets as [|a rest IH]; intros idx Hn Hex.
  - reflexivity.
  - cbn [forallb] in Hn. apply andb_true_iff in Hn as [Ha Hrest].
    cbn [existsb] in Hex. apply orb_false_iff in Hex as [Hna Hex].
    rewrite scan_universe_step, Hna by assumption. now apply IH.
Qed.

Lemma scan_universe_first_match (assets : list value) (idx : nat) :
  forallb has_name assets = true ->
  existsb (name_is symbol) assets = true ->
  exists i, scan_universe symbol assets idx = Ok (Some (idx + i)%nat)
            /\ first_match symbol assets i.
Proof.
  revert idx. induction assets as [|a rest IH]; intros idx Hn Hex.
  - discriminate.
  - cbn [forallb] in Hn. apply andb_true_iff in Hn as [Ha Hrest].
    rewrite scan_universe_step by assumption.
    destruct (name_is symbol a) eqn:Hna.
    + exists 0%nat. rewrite Nat.add_0_r. split; [reflexivity|]. split.
      * exists a. now split.
      * intros j b Hj. lia.
    + cbn [existsb] in Hex. rewrite Hna in Hex. cbn in Hex.
      destruct (IH (S idx) Hrest Hex) as (i & Hscan & (b & Hb & Hnb) & Hfirst).
      exists (S i). rewrite Nat.add_succ_r. split; [exact Hscan|]. split.
      * exists b. now split.
      * intros [|j] c Hj Hc.
        -- cbn in Hc. now inversion Hc; subst.
        -- cbn in Hc. apply (Hfirst j); [lia|assumption].
Qed.

Lemma err_kinds_differ : err_no_meta <> err_asset_not_found symbol.
Proof. discriminate. Qed.

Lemma find_asset_id_falsy (meta : value) :
  truthy meta = false -> find_asset_id symbol meta = Raise err_no_meta.
Proof. intros H. unfold find_asset_id. now rewrite H. Qed.

Lemma find_asset_id_universe (d : list (string * value)) (assets : list value) :
  lookup "universe" d = Some (VList assets) ->
  find_asset_id symbol (VDict d)
  = match scan_universe symbol assets 0 with
    | Raise e => Raise e
    | Ok None => Raise (err_asset_not_found symbol)
    | Ok (Some asset_id) => Ok asset_id
    end.
Proof.
  intros H. unfold find_asset_id.
  destruct d as [|kv d]; [discriminate|].
  cbn [truthy negb py_getitem]. rewrite H. reflexivity.
Qed.

(** C4: when the universe is a sequence of named descriptors and at least
    one of them is named [symbol], resolution returns the position of the
    first such descriptor. *)
Theorem C4_first_match_index (d : list (string * value)) (assets : list value) :
  lookup "universe" d = Some (VList assets) ->
  forallb has_name assets = true ->
  existsb (name_is symbol) assets = true ->
  exists i, find_asset_id symbol (VDict d) = Ok i /\ first_match symbol assets i.
Proof.
  intros Hu Hn Hex.
  destruct (scan_universe_first_match assets 0 Hn Hex) as (i & Hscan & Hfirst).
  exists i. split; [|exact Hfirst].
  rewrite (find_asset_id_universe d assets Hu), Hscan. reflexivity.
Qed.

(** C2 (amended): on a well-formed answer of [info.meta()], resolution
    raises the "Failed to get meta" error exactly when the answer is falsy
    ([None] or [{}]), raises the "not found in universe" error exactly when
    the answer is truthy and no descriptor of its universe is named
    [symbol] (the empty universe included), and raises nothing else. *)
Theorem C2_resolution_failures (meta : value) :
  well_formed_meta meta = true ->
  (find_asset_id symbol meta = Raise err_no_meta <-> truthy meta = false) /\
  (find_asset_id symbol meta = Raise (err_asset_not_found symbol) <->
   truthy meta = true /\ existsb (name_is symbol) (universe_of meta) = false) /\
  (forall e, find_asset_id symbol meta = Raise e ->
             e = err_no_meta \/ e = err_asset_not_found symbol).
Proof.
  intros Hwf.
  destruct (truthy meta) eqn:Ht.
  - (* a truthy, well-formed meta carries a universe of named descriptors *)
    destruct meta as [| | | | | |d]; try discriminate.
    destruct d as [|kv d]; [discriminate|].
    unfold well_formed_meta in Hwf. unfold universe_of.
    destruct (lookup "universe" (kv :: d)) as [[| | | | |assets|]|] eqn:Hu;
      try discriminate.
    rewrite (find_asset_id_universe _ _ Hu).
    destruct (existsb (name_is symbol) assets) eqn:Hex.
    + destruct (scan_universe_first_match assets 0 Hwf Hex) as (i & -> & _).
      split; [|split].
      * split; discriminate.
      * split; [discriminate|]. intros [_ H]. discriminate H.
      * intros e H. discriminate H.
    + rewrite (scan_universe_no_match assets 0 Hwf Hex).
      split; [|split].
      * split; [|discriminate]. intros H. inversion H.
      * split; [now split|reflexivity].
      * intros e H. right. now inversion H.
  - rewrite (find_asset_id_falsy meta Ht).
    split; [|split].
    + split; reflexivity.
    + split; [|intros [H _]; discriminate H]. intros H. inversion H.
    + intros e H. left. now inversion H.
Qed.

End AssetResolution.

Lemma C4_first_match_index_witness :
  exists i, find_asset_id "HYPE" sample_meta = Ok i
            /\ first_match "HYPE" (universe_of sample_meta) i.
Proof.
  apply (C4_first_match_index "HYPE" _ (universe_of sample_meta));
    reflexivity.
Defined.

Lemma C2_resolution_failures_witness :
  (find_asset_id "DOGE" sample_meta = Raise err_no_meta
   <-> truthy sample_meta = false) /\
  (find_asset_id "DOGE" sample_meta = Raise (err_asset_not_found "DOGE") <->
   truthy sample_meta = true
   /\ existsb (name_is "DOGE") (universe_of sample_meta) = false) /\
  (forall e, find_asset_id "DOGE" sample_meta = Raise e ->
             e = err_no_meta \/ e = err_asset_not_found "DOGE").
Proof.
  apply (C2_resolution_failures "DOGE" sample_meta). reflexivity.
Defined.

(** C2 as the specification words it fails on the empty universe: the
    answer [{"universe": []}] has an empty universe, yet resolution raises
    the "not found in universe" error and not the "Failed to get meta"
    one. *)
Lemma C2_empty_universe_counterexample :
  universe_of empty_universe_meta = [] /\
  find_asset_id "HYPE" empty_universe_meta = Raise (err_asset_not_found "HYPE") /\
  find_asset_id "HYPE" empty_universe_meta <> Raise err_no_meta.
Proof.
  split; [reflexivity|]. split; [reflexivity|].
  intros H. vm_compute in H. discriminate H.
Qed.

(** ** Order-type classification *)

Lemma labels_distinct : NoDup [label_ioc; label_gtc; label_alo; label_market].
Proof.
  repeat constructor; cbn; intuition discriminate.
Qed.

(** C1, on the code: each of the three limit variants prints exactly its own
    label and the four labels are pairwise distinct, but the market variant
    [{"market": {}}] prints no label at all, because the empty object it
    carries is falsy on line 161. *)
Theorem C1_market_prints_no_label :
  classify_order_type (limit_order "Ioc") = (Ok tt, [label_ioc]) /\
  classify_order_type (limit_order "Gtc") = (Ok tt, [label_gtc]) /\
  classify_order_type (limit_order "Alo") = (Ok tt, [label_alo]) /\
  NoDup [label_ioc; label_gtc; label_alo; label_market] /\
  classify_order_type market_order = (Ok tt, []).
Proof.
  repeat split; try reflexivity. exact labels_distinct.
Qed.

(** ** Account inspection *)

Section AccountInspection.
Variable w : World.

Lemma report_margin_run (user_state margin_summary a m : value) (fa fm : float) :
  py_get user_state "marginSummary" (VDict []) = Ok margin_summary ->
  py_get margin_summary "accountValue" (VInt 0) = Ok a ->
  py_float w a = Ok fa ->
  py_get margin_summary "totalMarginUsed" (VInt 0) = Ok m ->
  py_float w m = Ok fm ->
  report_margin w user_state = (Ok tt, margin_lines fa fm (fa - fm)).
Proof.
  intros Hs Ha Hfa Hm Hfm. unfold report_margin.
  rewrite Hs, bind_lift_ok, Ha, bind_lift_ok, Hfa, bind_lift_ok.
  rewrite Hm, bind_lift_ok, Hfm, bind_lift_ok.
  reflexivity.
Qed.

(** The margin report prints nothing or exactly its three lines. *)
Lemma report_margin_stdout (user_state : value) :
  stdout (report_margin w user_state) = [] \/
  exists fa fm, report_margin w user_state
                = (Ok tt, margin_lines fa fm (fa - fm)).
Proof.
  unfold report_margin.
  destruct (py_get user_state "marginSummary" (VDict [])) as [ms|e] eqn:Hs;
    [rewrite bind_lift_ok|now left].
  destruct (py_get ms "accountValue" (VInt 0)) as [a|e] eqn:Ha;
    [rewrite bind_lift_ok|now left].
  destruct (py_float w a) as [fa|e] eqn:Hfa; [rewrite bind_lift_ok|now left].
  destruct (py_get ms "totalMarginUsed" (VInt 0)) as [m|e] eqn:Hm;
    [rewrite bind_lift_ok|now left].
  destruct (py_float w m) as [fm|e] eqn:Hfm; [rewrite bind_lift_ok|now left].
  right. now exists fa, fm.
Qed.

Lemma inspect_account_run (addr : string) (user_state : value) :
  info_user_state w addr = Ok user_state ->
  inspect_account w addr
  = bind (print line_checking)
      (fun _ => try_except
                  (bind (report_margin w user_state)
                     (fun _ => bind (report_margin_mode w user_state)
                                 (fun _ => print [])))
                  warn_account_state).
Proof.
  intros H. unfold inspect_account, check_account_state.
  now rewrite H, bind_lift_ok.
Qed.

(** C5: when the margin summary carries an account value and a margin-used
    value that convert to the floats [fa] and [fm], the inspector reports
    them and reports [fa - fm] as the free collateral. *)
Theorem C5_free_collateral
  (addr : string) (us ms : list (string * value)) (a m : value) (fa fm : float) :
  info_user_state w addr = Ok (VDict us) ->
  lookup "marginSummary" us = Some (VDict ms) ->
  lookup "accountValue" ms = Some a -> py_float w a = Ok fa ->
  lookup "totalMarginUsed" ms = Some m -> py_float w m = Ok fm ->
  exists rest,
    stdout (inspect_account w addr)
    = line_checking ::
      [Lit "   Account Value: $"; Fix2 fa] ::
      [Lit "   Margin Used: $"; Fix2 fm] ::
      [Lit "   Free Collateral: $"; Fix2 (fa - fm)] :: rest.
Proof.
  intros Hu Hs Ha Hfa Hm Hfm.
  rewrite (inspect_account_run addr _ Hu).
  rewrite (report_margin_run (VDict us) (VDict ms) a m fa fm);
    [| cbn; now rewrite ?Hs, ?Ha, ?Hm ..]; try assumption.
  rewrite bind_print.
  destruct (report_margin_mode w (VDict us)) as [[[]|e] out]; cbn; eauto.
Qed.

Lemma py_float_zero : py_float w (VInt 0) = Ok 0%float.
Proof. reflexivity. Qed.

(** C10: a margin summary that is absent counts as empty, and a field the
    summary lacks counts as 0, so the margin report is printed without an
    error whenever the fields that are present convert; for an empty or
    absent summary the three reported figures are 0, and for an empty
    account state the whole inspection succeeds. *)
Theorem C10_missing_fields_default_to_zero
  (us ms : list (string * value)) (fa fm : float) :
  (lookup "marginSummary" us = None /\ ms = []
   \/ lookup "marginSummary" us = Some (VDict ms)) ->
  (lookup "accountValue" ms = None /\ fa = 0%float
   \/ exists a, lookup "accountValue" ms = Some a /\ py_float w a = Ok fa) ->
  (lookup "totalMarginUsed" ms = None /\ fm = 0%float
   \/ exists m, lookup "totalMarginUsed" ms = Some m /\ py_float w m = Ok fm) ->
  report_margin w (VDict us) = (Ok tt, margin_lines fa fm (fa - fm)) /\
  (ms = [] -> report_margin w (VDict us) = (Ok tt, margin_lines 0 0 0)) /\
  (forall addr, ms = [] -> lookup "crossMarginSummary" us = None ->
     info_user_state w addr = Ok (VDict us) ->
     inspect_account w addr
     = (Ok tt, line_checking :: margin_lines 0 0 0 ++ [line_isolated_margin; []])).
Proof.
  intros Hs Ha Hm.
  assert (Hrun : report_margin w (VDict us)
                 = (Ok tt, margin_lines fa fm (fa - fm))).
  { assert (Hget : py_get (VDict us) "marginSummary" (VDict []) = Ok (VDict ms))
      by (cbn; destruct Hs as [[-> ->]| ->]; reflexivity).
    destruct Ha as [[Ha ->]|(a & Ha & Hfa)], Hm as [[Hm ->]|(m & Hm & Hfm)].
    - apply (report_margin_run _ _ (VInt 0) (VInt 0) _ _ Hget);
        cbn; rewrite ?Ha, ?Hm; reflexivity.
    - apply (report_margin_run _ _ (VInt 0) m _ _ Hget);
        cbn; rewrite ?Ha, ?Hm; reflexivity || assumption.
    - apply (report_margin_run _ _ a (VInt 0) _ _ Hget);
        cbn; rewrite ?Ha, ?Hm; reflexivity || assumption.
    - apply (report_margin_run _ _ a m _ _ Hget);
        cbn; rewrite ?Ha, ?Hm; reflexivity || assumption. }
  assert (Hzero : ms = [] ->
                  report_margin w (VDict us) = (Ok tt, margin_lines 0 0 0)).
  { intros ->. rewrite Hrun.
    destruct Ha as [[_ ->]|(a & Ha & _)]; [|discriminate Ha].
    destruct Hm as [[_ ->]|(m & Hm & _)]; [|discriminate Hm].
    reflexivity. }
  split; [exact Hrun|]. split; [exact Hzero|].
  intros addr Hnil Hc Hu.
  rewrite (inspect_account_run addr _ Hu), (Hzero Hnil).
  unfold report_margin_mode. cbn [py_get]. rewrite Hc. reflexivity.
Qed.

Lemma report_margin_mode_cases (us : list (string * value)) :
  cross_summary_is_object us = true ->
  (cross_summary_nonempty us = false /\
   report_margin_mode w (VDict us) = (Ok tt, [line_isolated_margin]))
  \/
  (cross_summary_nonempty us = true /\
   ((exists e, report_margin_mode w (VDict us) = (Raise e, [line_cross_margin]))
    \/ exists f, report_margin_mode w (VDict us)
                 = (Ok tt, [line_cross_margin;
                            [Lit "   Cross Margin Value: $"; Fix2 f]]))).
Proof.
  unfold cross_summary_is_object, cross_summary_nonempty, report_margin_mode.
  cbn [py_get].
  destruct (lookup "crossMarginSummary" us) as [[| | | | | |[|kv d]]|];
    try discriminate; intros _; rewrite bind_lift_ok; cbn [truthy];
    try (left; split; reflexivity).
  right. split; [reflexivity|]. rewrite bind_print.
  destruct (py_get (VDict (kv :: d)) "accountValue" (VInt 0)) as [a|e];
    [rewrite bind_lift_ok|left; now exists e].
  destruct (py_float w a) as [f|e];
    [rewrite bind_lift_ok|left; now exists e].
  right. now exists f.
Qed.

(** C6: for a snapshot whose margin figures are reported and whose
    cross-margin summary, when present, is an object, the inspector prints
    the cross-margin line exactly when that summary is present and
    non-empty, and the isolated-margin line exactly when it is absent or
    empty. *)
Theorem C6_margin_mode (addr : string) (us : list (string * value)) :
  info_user_state w addr = Ok (VDict us) ->
  outcome (report_margin w (VDict us)) = Ok tt ->
  cross_summary_is_object us = true ->
  (In line_cross_margin (stdout (inspect_account w addr))
   <-> cross_summary_nonempty us = true) /\
  (In line_isolated_margin (stdout (inspect_account w addr))
   <-> cross_summary_nonempty us = false).
Proof.
  intros Hu Hok Hobj. rewrite (inspect_account_run addr _ Hu).
  destruct (report_margin_stdout (VDict us)) as [Hnil|(fa & fm & Hrun)].
  - (* the report ran to its end, so it printed its three lines *)
    exfalso. revert Hok Hnil. unfold report_margin.
    repeat match goal with
           | |- context [lift ?r] =>
               destruct r; [rewrite bind_lift_ok|discriminate]
           end.
    discriminate.
  - rewrite Hrun.
    destruct (report_margin_mode_cases us Hobj)
      as [[Hne Hmode]|[Hne [[e Hmode]|[f Hmode]]]];
      rewrite Hmode, Hne; cbn; unfold line_cross_margin, line_isolated_margin;
      split; split; intros H; try reflexivity; try discriminate H;
      intuition discriminate.
Qed.

End AccountInspection.

Lemma C5_free_collateral_witness :
  exists rest,
    stdout (inspect_account sample_world "0xabc")
    = line_checking ::
      [Lit "   Account Value: $"; Fix2 100] ::
      [Lit "   Margin Used: $"; Fix2 25] ::
      [Lit "   Free Collateral: $"; Fix2 (100 - 25)] :: rest.
Proof.
  eapply (C5_free_collateral sample_world "0xabc"); reflexivity.
Defined.

Lemma C10_missing_fields_default_to_zero_witness :
  let us := [("marginSummary", VDict [])] in
  report_margin sample_world (VDict us) = (Ok tt, margin_lines 0 0 (0 - 0)) /\
  (@nil (string * value) = [] ->
   report_margin sample_world (VDict us) = (Ok tt, margin_lines 0 0 0)) /\
  (forall addr, @nil (string * value) = [] ->
     lookup "crossMarginSummary" us = None ->
     info_user_state sample_world addr = Ok (VDict us) ->
     inspect_account sample_world addr
     = (Ok tt, line_checking :: margin_lines 0 0 0 ++ [line_isolated_margin; []])).
Proof.
  apply (C10_missing_fields_default_to_zero sample_world
           [("marginSummary", VDict [])] [] 0 0).
  - right. reflexivity.
  - left. split; reflexivity.
  - left. split; reflexivity.
Defined.

Lemma C6_margin_mode_witness :
  (In line_cross_margin (stdout (inspect_account sample_world "0xabc"))
   <-> cross_summary_nonempty
         [("marginSummary",
           VDict [("accountValue", VFloat 100); ("totalMarginUsed", VFloat 25)]);
          ("crossMarginSummary", VDict [("accountValue", VFloat 100)])] = true) /\
  (In line_isolated_margin (stdout (inspect_account sample_world "0xabc"))
   <-> cross_summary_nonempty
         [("marginSummary",
           VDict [("accountValue", VFloat 100); ("totalMarginUsed", VFloat 25)]);
          ("crossMarginSummary", VDict [("accountValue", VFloat 100)])] = false).
Proof.
  apply (C6_margin_mode sample_world "0xabc"); reflexivity.
Defined.

(** ** The workflow as a whole *)

Section Workflow.
Variable cfg : OrderConfig.
Variable w : World.

Lemma inspect_account_never_raises (addr : string) :
  outcome (inspect_account w addr) = Ok tt.
Proof.
  unfold inspect_account. rewrite bind_print. cbn [outcome fst].
  destruct (check_account_state w addr) as [[[]|e] out]; reflexivity.
Qed.

Lemma inspect_account_caught (addr : string) (e : exn) (body_out : list text) :
  check_account_state w addr = (Raise e, body_out) ->
  inspect_account w addr
  = (Ok tt, line_checking :: body_out ++ [line_warning e; []]).
Proof.
  intros H. unfold inspect_account. rewrite bind_print, H. reflexivity.
Qed.

(** Resolution inside the workflow is [find_asset_id] on the fetched meta. *)
Lemma resolve_asset_outcome :
  outcome (resolve_asset cfg w)
  = match info_meta w with
    | Ok meta => find_asset_id (coin cfg) meta
    | Raise e => Raise e
    end.
Proof.
  unfold resolve_asset. rewrite bind_print. cbn [outcome fst].
  destruct (info_meta w) as [meta|e]; [rewrite bind_lift_ok|reflexivity].
  destruct (find_asset_id (coin cfg) meta) as [i|e];
    [rewrite bind_lift_ok|reflexivity].
  reflexivity.
Qed.

Lemma main_run (wallet : Wallet) (pre : list text) :
  setup cfg w = (Ok wallet, pre) ->
  main cfg w
  = (outcome (after_inspection cfg w wallet),
     pre ++ stdout (inspect_account w (address wallet))
         ++ stdout (after_inspection cfg w wallet)).
Proof.
  intros Hsetup. unfold main. rewrite (bind_run_ok _ _ _ _ Hsetup).
  rewrite outcome_bind, stdout_bind, inspect_account_never_raises.
  reflexivity.
Qed.

(** C7: whatever exception the body of the account inspection raises, be
    it the query itself or the reading of its answer, the inspection step
    completes normally after printing the warning with the exception's
    text, and [main] goes on with asset resolution and order submission:
    its outcome is the outcome of those remaining steps. *)
Theorem C7_inspection_failure_is_not_fatal
  (wallet : Wallet) (pre body_out : list text) (e : exn) :
  setup cfg w = (Ok wallet, pre) ->
  check_account_state w (address wallet) = (Raise e, body_out) ->
  inspect_account w (address wallet)
  = (Ok tt, line_checking :: body_out ++ [line_warning e; []]) /\
  main cfg w
  = (outcome (after_inspection cfg w wallet),
     pre ++ (line_checking :: body_out ++ [line_warning e; []])
         ++ stdout (after_inspection cfg w wallet)).
Proof.
  intros Hsetup Hbody.
  pose proof (inspect_account_caught _ _ _ Hbody) as Hcaught.
  split; [exact Hcaught|].
  rewrite (main_run wallet pre Hsetup), Hcaught. reflexivity.
Qed.

Lemma status_not_ok (d : list (string * value)) (status : value) :
  lookup "status" d <> Some (VStr "ok") ->
  py_get (VDict d) "status" VNone = Ok status ->
  py_eq_str status "ok" = false.
Proof.
  intros Hne. cbn. destruct (lookup "status" d) as [v|]; intros [= <-];
    [|reflexivity].
  destruct v; try reflexivity. cbn.
  destruct (String.eqb_spec s "ok") as [->|]; [now elim Hne|reflexivity].
Qed.

Lemma report_result_not_ok (d : list (string * value)) :
  lookup "status" d <> Some (VStr "ok") ->
  report_result (VDict d)
  = (Ok tt,
     [[Lit "═══════════════════════════════════════════════════════════"];
      [Lit "📤 SDK RESPONSE:"];
      [Lit "═══════════════════════════════════════════════════════════"];
      [Dumps (Some 2%nat) (VDict d)];
      [];
      [Lit "❌ ORDER FAILED"];
      [Lit "   Response: "; Str (response_of d)];
      [];
      [Lit "💡 Note: The SDK handled all the complexity automatically!"];
      [Lit "   No manual signature generation needed."]]).
Proof.
  intros Hne. unfold report_result. rewrite !bind_print.
  destruct (py_get (VDict d) "status" VNone) as [status|e] eqn:Hs;
    [|cbn in Hs; destruct (lookup "status" d); discriminate].
  rewrite bind_lift_ok, (status_not_ok d status Hne Hs).
  unfold report_failed, response_of. cbn.
  destruct (lookup "response" d); reflexivity.
Qed.

(** C8: when the run reaches the submission and the exchange client
    returns a result object whose status is not ["ok"], [main] prints the
    result and the failure lines with the returned response, raises
    nothing and ends with exit status 0. *)
Theorem C8_rejected_order_exits_zero
  (wallet : Wallet) (pre : list text) (asset_id : nat)
  (d : list (string * value)) :
  setup cfg w = (Ok wallet, pre) ->
  outcome (resolve_asset cfg w) = Ok asset_id ->
  outcome (show_order cfg w asset_id) = Ok tt ->
  exchange_order w wallet (vault_address cfg) (coin cfg) (is_buy cfg) (sz cfg)
    (limit_px cfg) (order_type cfg) (reduce_only cfg) = Ok (VDict d) ->
  lookup "status" d <> Some (VStr "ok") ->
  outcome (main cfg w) = Ok tt /\
  exit_code (main cfg w) = 0%Z /\
  exists before,
    stdout (main cfg w)
    = before ++
      [[Dumps (Some 2%nat) (VDict d)];
       [];
       [Lit "❌ ORDER FAILED"];
       [Lit "   Response: "; Str (response_of d)];
       [];
       [Lit "💡 Note: The SDK handled all the complexity automatically!"];
       [Lit "   No manual signature generation needed."]].
Proof.
  intros Hsetup Hresolve Hshow Horder Hne.
  assert (Hafter :
    after_inspection cfg w wallet
    = (Ok tt,
       stdout (resolve_asset cfg w) ++ stdout (show_order cfg w asset_id)
       ++ stdout (submit_order cfg w wallet)
       ++ stdout (report_result (VDict d)))).
  { unfold after_inspection.
    rewrite (bind_run_ok _ _ asset_id (stdout (resolve_asset cfg w)))
      by (rewrite <- Hresolve; apply run_eta).
    rewrite (run_eta (bind (show_order cfg w asset_id) _)).
    rewrite outcome_bind, stdout_bind, Hshow.
    assert (Hsubmit : outcome (submit_order cfg w wallet) = Ok (VDict d))
      by (unfold submit_order; rewrite !bind_print, Horder; reflexivity).
    rewrite outcome_bind, stdout_bind, Hsubmit.
    rewrite (report_result_not_ok d Hne). reflexivity. }
  rewrite (main_run wallet pre Hsetup), Hafter.
  split; [reflexivity|]. split; [reflexivity|].
  rewrite (report_result_not_ok d Hne). cbn [stdout snd].
  eexists (pre ++ stdout (inspect_account w (address wallet))
           ++ stdout (resolve_asset cfg w) ++ stdout (show_order cfg w asset_id)
           ++ stdout (submit_order cfg w wallet) ++ [_; _; _]).
  rewrite <- !app_assoc. reflexivity.
Qed.

End Workflow.

Lemma C7_inspection_failure_is_not_fatal_witness :
  inspect_account offline_account_world (address sample_wallet)
  = (Ok tt, line_checking :: [] ++ [line_warning connection_refused; []]) /\
  main ORDER_CONFIG offline_account_world
  = (outcome (after_inspection ORDER_CONFIG offline_account_world sample_wallet),
     stdout (setup ORDER_CONFIG offline_account_world)
     ++ (line_checking :: [] ++ [line_warning connection_refused; []])
     ++ stdout (after_inspection ORDER_CONFIG offline_account_world
                  sample_wallet)).
Proof.
  apply (C7_inspection_failure_is_not_fatal ORDER_CONFIG offline_account_world
           sample_wallet (stdout (setup ORDER_CONFIG offline_account_world))
           [] connection_refused); reflexivity.
Defined.

Lemma C8_rejected_order_exits_zero_witness :
  outcome (main ORDER_CONFIG sample_world) = Ok tt /\
  exit_code (main ORDER_CONFIG sample_world) = 0%Z /\
  exists before,
    stdout (main ORDER_CONFIG sample_world)
    = before ++
      [[Dumps (Some 2%nat) (VDict sample_rejection)];
       [];
       [Lit "❌ ORDER FAILED"];
       [Lit "   Response: "; Str (response_of sample_rejection)];
       [];
       [Lit "💡 Note: The SDK handled all the complexity automatically!"];
       [Lit "   No manual signature generation needed."]].
Proof.
  apply (C8_rejected_order_exits_zero ORDER_CONFIG sample_world sample_wallet
           (stdout (setup ORDER_CONFIG sample_world)) 2 sample_rejection);
    try reflexivity.
  discriminate.
Defined.

(** * Further properties of the code *)

(** ** Credentials and the early exits of [main] *)

Lemma bind_assoc {A B C} (m : M A) (f : A -> M B) (g : B -> M C) :
  bind (bind m f) g = bind m (fun a => bind (f a) g).
Proof.
  destruct m as [[a|e] out]; [|reflexivity].
  cbn. destruct (f a) as [[b|e] out1]; cbn; [|reflexivity].
  destruct (g b) as [r out2]. now rewrite app_assoc.
Qed.

Lemma startswith_0x_drop2 (k : string) :
  startswith_0x k = true -> ("0x" ++ drop2 k)%string = k.
Proof.
  unfold startswith_0x. destruct k as [|a [|b rest]]; cbn [prefix].
  - discriminate.
  - destruct (ascii_dec "0" a); discriminate.
  - destruct (ascii_dec "0" a) as [<-|]; [|discriminate].
    destruct (ascii_dec "x" b) as [<-|]; [|discriminate].
    reflexivity.
Qed.

(** X1: the key handed to [Account.from_key] always carries exactly the prefix
    the key text asks for: a key that starts with ["0x"] is passed on
    unchanged (one prefix is cut and put back), any other non-empty key is
    passed on with ["0x"] in front. *)
Theorem load_wallet_normalises (w : World) (k : string) :
  k <> "" ->
  load_wallet w (Some k)
  = from_key w (if startswith_0x k then k else ("0x" ++ k)%string).
Proof.
  intros Hne. destruct (startswith_0x k) eqn:Hpre.
  - rewrite <- (startswith_0x_drop2 k Hpre) at 1.
    rewrite load_wallet_prefixed. now rewrite startswith_0x_drop2.
  - now apply load_wallet_bare.
Qed.

Lemma load_wallet_normalises_witness :
  load_wallet sample_world (Some "0X1f")
  = from_key sample_world
      (if startswith_0x "0X1f" then "0X1f" else ("0x" ++ "0X1f")%string).
Proof.
  apply (load_wallet_normalises sample_world "0X1f"). discriminate.
Defined.

(** X2: without a key, unset or empty, [main] prints its banner and stops with
    the "not set" error and exit status 1, whatever the SDK would answer. *)
Theorem main_without_key (cfg : OrderConfig) (w : World) :
  getenv_PRIVATE_KEY w = None \/ getenv_PRIVATE_KEY w = Some "" ->
  main cfg w = (Raise err_no_key, banner) /\ exit_code (main cfg w) = 1%Z.
Proof.
  intros H.
  assert (Hmain : main cfg w = (Raise err_no_key, banner))
    by (unfold main, setup; destruct H as [H|H]; rewrite H; reflexivity).
  split; [exact Hmain|]. unfold exit_code. now rewrite Hmain.
Qed.

Lemma main_without_key_witness :
  main ORDER_CONFIG keyless_world = (Raise err_no_key, banner)
  /\ exit_code (main ORDER_CONFIG keyless_world) = 1%Z.
Proof.
  apply (main_without_key ORDER_CONFIG keyless_world). left. reflexivity.
Defined.

Section Submission.
Variable cfg : OrderConfig.
Variable w : World.

Lemma after_inspection_run (wallet : Wallet) (asset_id : nat) :
  outcome (resolve_asset cfg w) = Ok asset_id ->
  outcome (show_order cfg w asset_id) = Ok tt ->
  after_inspection cfg w wallet
  = (match outcome (submit_order cfg w wallet) with
     | Ok r => outcome (report_result r)
     | Raise e => Raise e
     end,
     stdout (resolve_asset cfg w) ++ stdout (show_order cfg w asset_id)
     ++ stdout (submit_order cfg w wallet)
     ++ match outcome (submit_order cfg w wallet) with
        | Ok r => stdout (report_result r)
        | Raise _ => []
        end).
Proof.
  intros Hresolve Hshow. unfold after_inspection.
  rewrite (bind_run_ok _ _ asset_id (stdout (resolve_asset cfg w)))
    by (rewrite <- Hresolve; apply run_eta).
  rewrite (run_eta (bind (show_order cfg w asset_id) _)).
  rewrite outcome_bind, stdout_bind, Hshow.
  now rewrite outcome_bind, stdout_bind.
Qed.

Lemma submit_order_run (wallet : Wallet) :
  submit_order cfg w wallet
  = (exchange_order w wallet (vault_address cfg) (coin cfg) (is_buy cfg)
       (sz cfg) (limit_px cfg) (order_type cfg) (reduce_only cfg),
     submission_notice).
Proof.
  unfold submit_order. rewrite !bind_print.
  now destruct (exchange_order _ _ _ _ _ _ _ _ _).
Qed.

(** X3: once the exchange client has returned a result, the end of the run is
    the interpretation of that result: [main] ends as [report_result]
    does, and what [report_result] prints closes the output. *)
Theorem main_ends_as_report
  (wallet : Wallet) (pre : list text) (asset_id : nat) (r : value) :
  setup cfg w = (Ok wallet, pre) ->
  outcome (resolve_asset cfg w) = Ok asset_id ->
  outcome (show_order cfg w asset_id) = Ok tt ->
  exchange_order w wallet (vault_address cfg) (coin cfg) (is_buy cfg) (sz cfg)
    (limit_px cfg) (order_type cfg) (reduce_only cfg) = Ok r ->
  outcome (main cfg w) = outcome (report_result r) /\
  exists before, stdout (main cfg w) = before ++ stdout (report_result r).
Proof.
  intros Hsetup Hresolve Hshow Horder.
  rewrite (main_run cfg w wallet pre Hsetup).
  rewrite (after_inspection_run wallet asset_id Hresolve Hshow).
  rewrite (submit_order_run wallet), Horder. cbn [outcome stdout fst snd].
  split; [reflexivity|].
  eexists. rewrite !app_assoc. reflexivity.
Qed.

(** X4: an exception of the exchange client is not caught: [main] ends with
    it and with exit status 1, and its last output is the notice printed
    before the call; no response section follows. *)
Theorem main_submission_exception
  (wallet : Wallet) (pre : list text) (asset_id : nat) (e : exn) :
  setup cfg w = (Ok wallet, pre) ->
  outcome (resolve_asset cfg w) = Ok asset_id ->
  outcome (show_order cfg w asset_id) = Ok tt ->
  exchange_order w wallet (vault_address cfg) (coin cfg) (is_buy cfg) (sz cfg)
    (limit_px cfg) (order_type cfg) (reduce_only cfg) = Raise e ->
  outcome (main cfg w) = Raise e /\
  exit_code (main cfg w) = 1%Z /\
  stdout (main cfg w)
  = pre ++ stdout (inspect_account w (address wallet))
    ++ stdout (resolve_asset cfg w) ++ stdout (show_order cfg w asset_id)
    ++ submission_notice.
Proof.
  intros Hsetup Hresolve Hshow Horder.
  rewrite (main_run cfg w wallet pre Hsetup). unfold exit_code.
  rewrite (after_inspection_run wallet asset_id Hresolve Hshow).
  rewrite (submit_order_run wallet), Horder. cbn [outcome stdout fst snd].
  now rewrite app_nil_r.
Qed.

End Submission.

Section EarlyFailure.
Variable cfg : OrderConfig.
Variable w : World.

Lemma after_inspection_stops_early (wallet : Wallet) :
  (exists e, outcome (resolve_asset cfg w) = Raise e)
  \/ (exists asset_id e, outcome (resolve_asset cfg w) = Ok asset_id
                         /\ outcome (show_order cfg w asset_id) = Raise e) ->
  exists e out,
    forall order', after_inspection cfg (with_exchange_order w order') wallet
                   = (Raise e, out).
Proof.
  intros [[e He]|(asset_id & e & Hid & He)].
  - exists e, (stdout (resolve_asset cfg w)). intros order'.
    unfold after_inspection.
    change (resolve_asset cfg (with_exchange_order w order'))
      with (resolve_asset cfg w).
    apply bind_run_raise. rewrite <- He. apply run_eta.
  - exists e, (stdout (resolve_asset cfg w)
               ++ stdout (show_order cfg w asset_id)).
    intros order'. unfold after_inspection.
    change (resolve_asset cfg (with_exchange_order w order'))
      with (resolve_asset cfg w).
    rewrite (bind_run_ok _ _ asset_id (stdout (resolve_asset cfg w)))
      by (rewrite <- Hid; apply run_eta).
    change (show_order cfg (with_exchange_order w order') asset_id)
      with (show_order cfg w asset_id).
    rewrite (bind_run_raise _ _ e (stdout (show_order cfg w asset_id)))
      by (rewrite <- He; apply run_eta).
    reflexivity.
Qed.

Lemma with_exchange_order_same (order' : _) :
  exchange_order w = order' -> with_exchange_order w order' = w.
Proof. intros <-. now destruct w. Qed.

(** X5: the exchange client is consulted only after the credentials, the asset
    resolution and the order display went through: when one of them
    raises, [main] ends with exit status 1 and its whole run is the same
    whatever [exchange.order] would do, so no order was submitted. *)
Theorem no_order_after_early_failure :
  (exists e, outcome (setup cfg w) = Raise e)
  \/ (exists e, outcome (resolve_asset cfg w) = Raise e)
  \/ (exists asset_id e, outcome (resolve_asset cfg w) = Ok asset_id
                         /\ outcome (show_order cfg w asset_id) = Raise e) ->
  exit_code (main cfg w) = 1%Z /\
  forall order', main cfg (with_exchange_order w order') = main cfg w.
Proof.
  intros H.
  assert (Hall : exists e out,
             forall order', main cfg (with_exchange_order w order')
                            = (Raise e, out)).
  { destruct (setup cfg w) as [[wallet|e0] pre] eqn:Hsetup.
    - destruct H as [[e He]|H]; [discriminate He|].
      destruct (after_inspection_stops_early wallet H) as (e & out & Hafter).
      exists e, (pre ++ stdout (inspect_account w (address wallet)) ++ out).
      intros order'.
      rewrite (main_run cfg (with_exchange_order w order') wallet pre Hsetup).
      now rewrite Hafter.
    - exists e0, pre. intros order'. unfold main.
      apply bind_run_raise. exact Hsetup. }
  destruct Hall as (e & out & Hall).
  assert (Hw : main cfg w = (Raise e, out)).
  { rewrite <- (Hall (exchange_order w)).
    now rewrite with_exchange_order_same. }
  split.
  - unfold exit_code. now rewrite Hw.
  - intros order'. now rewrite Hall, Hw.
Qed.

End EarlyFailure.

Lemma no_order_after_early_failure_witness :
  exit_code (main ORDER_CONFIG
               (world_with (Ok sample_user_state) (Ok empty_universe_meta)
                  (Ok VNone))) = 1%Z /\
  forall order',
    main ORDER_CONFIG
      (with_exchange_order
         (world_with (Ok sample_user_state) (Ok empty_universe_meta) (Ok VNone))
         order')
    = main ORDER_CONFIG
        (world_with (Ok sample_user_state) (Ok empty_universe_meta) (Ok VNone)).
Proof.
  apply (no_order_after_early_failure ORDER_CONFIG
           (world_with (Ok sample_user_state) (Ok empty_universe_meta)
              (Ok VNone))).
  right. left. exists (err_asset_not_found "HYPE"). reflexivity.
Defined.

Lemma main_ends_as_report_witness :
  outcome (main ORDER_CONFIG
             (world_with (Ok sample_user_state) (Ok sample_meta)
                (Ok (VDict sample_filled))))
  = outcome (report_result (VDict sample_filled)) /\
  exists before,
    stdout (main ORDER_CONFIG
              (world_with (Ok sample_user_state) (Ok sample_meta)
                 (Ok (VDict sample_filled))))
    = before ++ stdout (report_result (VDict sample_filled)).
Proof.
  apply (main_ends_as_report ORDER_CONFIG
           (world_with (Ok sample_user_state) (Ok sample_meta)
              (Ok (VDict sample_filled)))
           sample_wallet
           (stdout (setup ORDER_CONFIG sample_world)) 2);
    reflexivity.
Defined.

Lemma main_submission_exception_witness :
  let w := world_with (Ok sample_user_state) (Ok sample_meta)
             (Raise connection_refused) in
  outcome (main ORDER_CONFIG w) = Raise connection_refused /\
  exit_code (main ORDER_CONFIG w) = 1%Z /\
  stdout (main ORDER_CONFIG w)
  = stdout (setup ORDER_CONFIG sample_world)
    ++ stdout (inspect_account w (address sample_wallet))
    ++ stdout (resolve_asset ORDER_CONFIG w)
    ++ stdout (show_order ORDER_CONFIG w 2)
    ++ submission_notice.
Proof.
  apply (main_submission_exception ORDER_CONFIG
           (world_with (Ok sample_user_state) (Ok sample_meta)
              (Raise connection_refused))
           sample_wallet (stdout (setup ORDER_CONFIG sample_world)) 2
           connection_refused);
    reflexivity.
Defined.

(** ** The account inspection on any answer of the SDK *)

Section InspectionShape.
Variable w : World.

Lemma report_margin_mode_shapes (user_state : value) :
  (exists e, report_margin_mode w user_state = (Raise e, []))
  \/ report_margin_mode w user_state = (Ok tt, [line_isolated_margin])
  \/ (exists e, report_margin_mode w user_state = (Raise e, [line_cross_margin]))
  \/ (exists f, report_margin_mode w user_state
                = (Ok tt, [line_cross_margin; cross_value_line f])).
Proof.
  unfold report_margin_mode.
  destruct (py_get user_state "crossMarginSummary" (VDict [])) as [cm|e];
    [rewrite bind_lift_ok|left; now exists e].
  destruct (truthy cm); [|right; left; reflexivity].
  rewrite bind_print.
  destruct (py_get cm "accountValue" (VInt 0)) as [a|e];
    [rewrite bind_lift_ok|right; right; left; now exists e].
  destruct (py_float w a) as [f|e];
    [rewrite bind_lift_ok|right; right; left; now exists e].
  right; right; right. now exists f.
Qed.

Lemma report_margin_shapes (user_state : value) :
  (exists e, report_margin w user_state = (Raise e, []))
  \/ (exists fa fm, report_margin w user_state
                    = (Ok tt, margin_lines fa fm (fa - fm))).
Proof.
  unfold report_margin.
  repeat match goal with
         | |- context [lift ?r] =>
             destruct r as [?|e]; [rewrite bind_lift_ok|left; now exists e]
         end.
  right. do 2 eexists. reflexivity.
Qed.

(** What the [try] body prints and how it ends, for a fetched state. *)
Lemma check_account_state_run (addr : string) (user_state : value) :
  info_user_state w addr = Ok user_state ->
  check_account_state w addr
  = (match outcome (report_margin w user_state) with
     | Ok _ => outcome (report_margin_mode w user_state)
     | Raise e => Raise e
     end,
     stdout (report_margin w user_state)
     ++ match outcome (report_margin w user_state) with
        | Ok _ => stdout (report_margin_mode w user_state)
                  ++ match outcome (report_margin_mode w user_state) with
                     | Ok _ => [[]]
                     | Raise _ => []
                     end
        | Raise _ => []
        end).
Proof.
  intros Hu. unfold check_account_state. rewrite Hu, bind_lift_ok.
  rewrite (run_eta (bind _ _)), outcome_bind, stdout_bind.
  destruct (outcome (report_margin w user_state)) as [[]|e]; [|reflexivity].
  rewrite outcome_bind, stdout_bind.
  now destruct (outcome (report_margin_mode w user_state)) as [[]|e].
Qed.

Lemma check_account_state_cases (addr : string) :
  (exists e out, check_account_state w addr = (Raise e, out)
                 /\ existsb is_warning out = false
                 /\ ~ In line_isolated_margin out)
  \/ (exists out, check_account_state w addr = (Ok tt, out ++ [[]])
                  /\ existsb is_warning out = false
                  /\ ~ (In line_cross_margin out /\ In line_isolated_margin out)).
Proof.
  destruct (info_user_state w addr) as [us|e] eqn:Hu.
  - rewrite (check_account_state_run addr us Hu).
    destruct (report_margin_shapes us) as [[e ->]|(fa & fm & ->)];
      cbn [outcome stdout fst snd].
    + left. exists e, []. repeat split; auto.
    + destruct (report_margin_mode_shapes us)
        as [[e ->]|[->|[[e ->]|[f ->]]]]; cbn [outcome stdout fst snd].
      * left. exists e. eexists. split; [reflexivity|].
        split; [reflexivity|]. cbn. intuition discriminate.
      * right. exists (margin_lines fa fm (fa - fm) ++ [line_isolated_margin]).
        split; [now rewrite <- app_assoc|]. split; [reflexivity|].
        cbn. intuition discriminate.
      * left. exists e. eexists. split; [reflexivity|].
        split; [reflexivity|]. cbn. intuition discriminate.
      * right.
        exists (margin_lines fa fm (fa - fm)
                ++ [line_cross_margin; cross_value_line f]).
        split; [now rewrite <- app_assoc|]. split; [reflexivity|].
        cbn. intuition discriminate.
  - left. exists e, []. unfold check_account_state. rewrite Hu.
    repeat split; auto.
Qed.


(** X7: the warning line is printed exactly when the [try] body raised. *)
Theorem warning_iff_body_raised (addr : string) :
  existsb is_warning (stdout (inspect_account w addr)) = true
  <-> exists e, outcome (check_account_state w addr) = Raise e.
Proof.
  unfold inspect_account. rewrite bind_print. cbn [stdout snd].
  assert (Hhead : forall l, existsb is_warning (line_checking :: l)
                            = existsb is_warning l) by reflexivity.
  rewrite Hhead.
  destruct (check_account_state_cases addr)
    as [(e & out & -> & Hnw & _)|(out & -> & Hnw & _)];
    unfold try_except, warn_account_state; rewrite ?bind_print;
    cbn [print outcome stdout fst snd].
  - change (existsb is_warning (out ++ [line_warning e; []]) = true
            <-> exists e0, @Raise unit e = Raise e0).
    rewrite existsb_app, Hnw.
    split; [now exists e|reflexivity].
  - change (@existsb text is_warning (@app text out [[]]) = true
            <-> exists e0, Ok tt = Raise e0).
    rewrite existsb_app, Hnw.
    split; [discriminate|]. intros [e He]. discriminate He.
Qed.

(** X8: the two margin-mode lines exclude each other: no answer of the SDK
    makes the inspection print both. *)
Theorem one_margin_mode_line (addr : string) :
  ~ (In line_cross_margin (stdout (inspect_account w addr))
     /\ In line_isolated_margin (stdout (inspect_account w addr))).
Proof.
  unfold inspect_account. rewrite bind_print. cbn [stdout snd].
  destruct (check_account_state_cases addr)
    as [(e & out & -> & _ & Hni)|(out & -> & _ & Hboth)];
    cbn [try_except warn_account_state bind print outcome stdout fst snd].
  - intros [_ [H|H]]; [discriminate H|].
    rewrite !in_app_iff in H. cbn in H.
    unfold line_warning, line_isolated_margin in *. intuition discriminate.
  - intros [[Hc|Hc] [Hi|Hi]]; try discriminate.
    rewrite in_app_iff in Hc, Hi. cbn in Hc, Hi.
    unfold line_cross_margin, line_isolated_margin in *.
    intuition discriminate.
Qed.

(** X9: a state that is not an object (a [None] answer, a list, a string)
    yields no figures at all: the only output is the heading, the warning
    for the failed [.get] and the empty line. *)
Theorem non_object_state_warns (addr : string) (user_state : value) :
  info_user_state w addr = Ok user_state ->
  is_dict user_state = false ->
  inspect_account w addr
  = (Ok tt,
     [line_checking;
      line_warning (Raised AttributeError
                      [BuiltinMsg AttributeError user_state]);
      []]).
Proof.
  intros Hu Hnd. unfold inspect_account, check_account_state.
  rewrite Hu, bind_lift_ok, bind_print.
  destruct user_state; try discriminate Hnd; reflexivity.
Qed.

(** X10: a non-empty cross-margin summary whose account value does not convert
    is found out only after the figures and the cross-margin line were
    printed: the report is followed by the warning. *)
Theorem cross_value_failure_after_report
  (addr : string) (us cm : list (string * value)) (fa fm : float)
  (a : value) (e : exn) :
  info_user_state w addr = Ok (VDict us) ->
  report_margin w (VDict us) = (Ok tt, margin_lines fa fm (fa - fm)) ->
  lookup "crossMarginSummary" us = Some (VDict cm) ->
  lookup "accountValue" cm = Some a ->
  py_float w a = Raise e ->
  inspect_account w addr
  = (Ok tt,
     line_checking :: margin_lines fa fm (fa - fm)
     ++ [line_cross_margin; line_warning e; []]).
Proof.
  intros Hu Hm Hc Ha He. unfold inspect_account. rewrite bind_print.
  rewrite (check_account_state_run addr _ Hu), Hm.
  assert (Hmode : report_margin_mode w (VDict us)
                  = (Raise e, [line_cross_margin])).
  { unfold report_margin_mode. cbn [py_get]. rewrite Hc, bind_lift_ok.
    destruct cm as [|kv cm]; [discriminate Ha|]. cbn [truthy].
    rewrite bind_print. cbn [py_get]. rewrite Ha, bind_lift_ok, He.
    reflexivity. }
  rewrite Hmode. reflexivity.
Qed.

End InspectionShape.

Lemma non_object_state_warns_witness :
  inspect_account (world_with (Ok VNone) (Ok sample_meta) (Ok VNone)) "0xabc"
  = (Ok tt,
     [line_checking;
      line_warning (Raised AttributeError [BuiltinMsg AttributeError VNone]);
      []]).
Proof.
  apply (non_object_state_warns
           (world_with (Ok VNone) (Ok sample_meta) (Ok VNone)) "0xabc" VNone);
    reflexivity.
Defined.

Lemma cross_value_failure_after_report_witness :
  let us := [("marginSummary",
              VDict [("accountValue", VFloat 100);
                     ("totalMarginUsed", VFloat 25)]);
             ("crossMarginSummary", VDict [("accountValue", VNone)])] in
  inspect_account (world_with (Ok (VDict us)) (Ok sample_meta) (Ok VNone))
    "0xabc"
  = (Ok tt,
     line_checking :: margin_lines 100 25 (100 - 25)
     ++ [line_cross_margin;
         line_warning (Raised TypeError [BuiltinMsg TypeError VNone]); []]).
Proof.
  eapply (cross_value_failure_after_report
            (world_with _ (Ok sample_meta) (Ok VNone)) "0xabc");
    reflexivity.
Defined.

(** ** Asset resolution on any answer of the SDK *)

Section ResolutionShape.
Variable symbol : string.

Lemma name_is_getitem (asset : value) :
  name_is symbol asset = true <->
  exists n, py_getitem asset "name" = Ok n /\ py_eq_str n symbol = true.
Proof.
  destruct asset as [| | | | | |d]; cbn;
    try (split; [discriminate|intros (n & H & _); discriminate H]).
  destruct (lookup "name" d) as [v|].
  - split.
    + intros H. exists v. split; [reflexivity|]. now destruct v.
    + intros (n & [= <-] & H). now destruct v.
  - split; [discriminate|intros (n & H & _); discriminate H].
Qed.

Lemma scan_universe_inv (asset : value) (rest : list value) (idx i : nat) :
  scan_universe symbol (asset :: rest) idx = Ok (Some i) ->
  (name_is symbol asset = true /\ i = idx)
  \/ (name_is symbol asset = false /\ has_name asset = true
      /\ scan_universe symbol rest (S idx) = Ok (Some i)).
Proof.
  cbn [scan_universe].
  destruct (py_getitem asset "name") as [n|e] eqn:Hn; [|discriminate].
  assert (Hnamed : has_name asset = true).
  { destruct asset; try discriminate Hn. cbn in *.
    now destruct (lookup "name" d). }
  destruct (py_eq_str n symbol) eqn:Heq.
  - intros [= <-]. left. split; [|reflexivity].
    apply name_is_getitem. now exists n.
  - intros H. right. repeat split; try assumption.
    destruct (name_is symbol asset) eqn:Hni; [|reflexivity].
    apply name_is_getitem in Hni as (m & Hm & Hms). congruence.
Qed.

Lemma scan_universe_sound (assets : list value) (idx i : nat) :
  scan_universe symbol assets idx = Ok (Some i) ->
  exists k, i = (idx + k)%nat /\ first_match symbol assets k.
Proof.
  revert idx. induction assets as [|a rest IH]; intros idx H.
  - discriminate H.
  - apply scan_universe_inv in H as [[Ha ->]|(Ha & _ & H)].
    + exists 0%nat. split; [lia|]. split.
      * exists a. now split.
      * intros j b Hj. lia.
    + destruct (IH _ H) as (k & -> & (b & Hb & Hbn) & Hfirst).
      exists (S k). split; [lia|]. split.
      * exists b. now split.
      * intros [|j] c Hj Hc; cbn in Hc.
        -- now inversion Hc; subst.
        -- apply (Hfirst j); [lia|assumption].
Qed.

(** X11: whatever [info.meta()] answers, an index returned by the resolution
    is a position of the scanned universe, the descriptor there is named
    [symbol], and no earlier descriptor is. *)
Theorem find_asset_id_sound (meta : value) (i : nat) :
  find_asset_id symbol meta = Ok i ->
  exists universe assets,
    py_getitem meta "universe" = Ok universe /\
    py_iter universe = Ok assets /\
    (i < List.length assets)%nat /\
    first_match symbol assets i.
Proof.
  unfold find_asset_id. destruct (negb (truthy meta)); [discriminate|].
  destruct (py_getitem meta "universe") as [universe|e] eqn:Hu;
    [|discriminate].
  destruct (py_iter universe) as [assets|e] eqn:Hiter; [|discriminate].
  destruct (scan_universe symbol assets 0) as [[k|]|e] eqn:Hscan;
    try discriminate.
  intros [= <-]. exists universe, assets.
  destruct (scan_universe_sound _ _ _ Hscan) as (k' & -> & Hfirst).
  cbn [Nat.add]. split; [reflexivity|]. split; [exact Hiter|].
  split; [|exact Hfirst].
  destruct Hfirst as [(a & Ha & _) _]. apply nth_error_Some. congruence.
Qed.

Lemma scan_universe_prefix (before rest : list value) (idx : nat) :
  forallb has_name before = true ->
  existsb (name_is symbol) before = false ->
  scan_universe symbol (before ++ rest) idx
  = scan_universe symbol rest (idx + List.length before).
Proof.
  revert idx. induction before as [|a before IH]; intros idx Hn Hex.
  - cbn. now rewrite Nat.add_0_r.
  - cbn [forallb] in Hn. apply andb_true_iff in Hn as [Ha Hn].
    cbn [existsb] in Hex. apply orb_false_iff in Hex as [Hna Hex].
    cbn [app]. rewrite (scan_universe_step symbol a _ idx Ha), Hna.
    rewrite IH by assumption. cbn [List.length]. f_equal. lia.
Qed.

(** X12: the scan stops at the first match: what follows it in the universe is
    never read, so it may be anything, even entries without a name. *)
Theorem find_asset_id_ignores_tail
  (d : list (string * value)) (before after : list value) (asset : value) :
  lookup "universe" d = Some (VList (before ++ asset :: after)) ->
  forallb has_name before = true ->
  existsb (name_is symbol) before = false ->
  name_is symbol asset = true ->
  find_asset_id symbol (VDict d) = Ok (List.length before).
Proof.
  intros Hu Hn Hex Ha.
  rewrite (find_asset_id_universe symbol d _ Hu).
  rewrite (scan_universe_prefix before _ 0 Hn Hex).
  apply name_is_getitem in Ha as (n & Hget & Heq).
  cbn [scan_universe]. now rewrite Hget, Heq.
Qed.

(** X13: a descriptor without a ["name"] that comes before any match stops the
    resolution with [KeyError('name')], even when a later descriptor
    carries the symbol. *)
Theorem unnamed_entry_raises_key_error
  (d bad : list (string * value)) (before after : list value) :
  lookup "universe" d = Some (VList (before ++ VDict bad :: after)) ->
  forallb has_name before = true ->
  existsb (name_is symbol) before = false ->
  lookup "name" bad = None ->
  find_asset_id symbol (VDict d) = Raise (Raised KeyError [Repr (VStr "name")]).
Proof.
  intros Hu Hn Hex Hbad.
  rewrite (find_asset_id_universe symbol d _ Hu).
  rewrite (scan_universe_prefix before _ 0 Hn Hex).
  cbn [scan_universe py_getitem]. now rewrite Hbad.
Qed.

End ResolutionShape.

Lemma find_asset_id_sound_witness :
  exists universe assets,
    py_getitem sample_meta "universe" = Ok universe /\
    py_iter universe = Ok assets /\
    (2 < List.length assets)%nat /\
    first_match "HYPE" assets 2.
Proof.
  apply (find_asset_id_sound "HYPE" sample_meta 2). reflexivity.
Defined.

Lemma find_asset_id_ignores_tail_witness :
  find_asset_id "HYPE"
    (VDict [("universe",
             VList ([VDict [("name", VStr "BTC")]]
                    ++ VDict [("name", VStr "HYPE")]
                    :: [VNone; VDict [("szDecimals", VInt 2)]]))])
  = Ok (List.length [VDict [("name", VStr "BTC")]]).
Proof.
  apply (find_asset_id_ignores_tail "HYPE" _
           [VDict [("name", VStr "BTC")]]
           [VNone; VDict [("szDecimals", VInt 2)]]
           (VDict [("name", VStr "HYPE")])); reflexivity.
Defined.

Lemma unnamed_entry_raises_key_error_witness :
  find_asset_id "HYPE"
    (VDict [("universe",
             VList ([VDict [("name", VStr "BTC")]]
                    ++ VDict [("szDecimals", VInt 2)]
                    :: [VDict [("name", VStr "HYPE")]]))])
  = Raise (Raised KeyError [Repr (VStr "name")]).
Proof.
  apply (unnamed_entry_raises_key_error "HYPE" _
           [("szDecimals", VInt 2)]
           [VDict [("name", VStr "BTC")]]
           [VDict [("name", VStr "HYPE")]]); reflexivity.
Defined.

(** ** Order-type classification on any order type *)

Lemma tif_is_shape_ok (d : list (string * value)) (tif : string) :
  order_type_shape_ok (VDict d) = true ->
  tif_is (VDict d) tif = Ok (py_eq_str (tif_of d) tif).
Proof.
  unfold order_type_shape_ok, tif_is, tif_of. cbn [py_get].
  destruct (lookup "limit" d) as [[| | | | | |l]|]; try discriminate;
    intros _; cbn [py_get]; [destruct (lookup "tif" l)|]; reflexivity.
Qed.

Lemma tif_is_malformed (order_type : value) (tif : string) :
  order_type_shape_ok order_type = false ->
  exists e, tif_is order_type tif = Raise e.
Proof.
  unfold order_type_shape_ok, tif_is.
  destruct order_type as [| | | | | |d]; try (intros _; eexists; reflexivity).
  cbn [py_get].
  destruct (lookup "limit" d) as [[| | | | | |l]|]; try discriminate;
    intros _; eexists; reflexivity.
Qed.

(** X14: the chain of lines 155-162 prints nothing or exactly one of its four
    labels, and when it raises it has printed nothing. *)
Theorem classify_prints_at_most_one_label (order_type : value) :
  (exists e, classify_order_type order_type = (Raise e, []))
  \/ classify_order_type order_type = (Ok tt, [])
  \/ (exists l, In l [label_ioc; label_gtc; label_alo; label_market]
                /\ classify_order_type order_type = (Ok tt, [l])).
Proof.
  unfold classify_order_type.
  destruct (tif_is order_type "Ioc") as [[]|e];
    [right; right; exists label_ioc; cbn; auto | rewrite bind_lift_ok
    | left; now exists e].
  destruct (tif_is order_type "Gtc") as [[]|e];
    [right; right; exists label_gtc; cbn; auto | rewrite bind_lift_ok
    | left; now exists e].
  destruct (tif_is order_type "Alo") as [[]|e];
    [right; right; exists label_alo; cbn; auto | rewrite bind_lift_ok
    | left; now exists e].
  destruct (py_get order_type "market" VNone) as [m|e];
    [rewrite bind_lift_ok | left; now exists e].
  destruct (truthy m);
    [right; right; exists label_market; cbn; auto 6 | right; left; reflexivity].
Qed.

(** X15: the chain raises exactly on an order type that is not an object or
    whose ["limit"] is not an object, such as [{"limit": "Ioc"}]. *)
Theorem classify_raises_iff_malformed (order_type : value) :
  outcome (classify_order_type order_type) = Ok tt
  <-> order_type_shape_ok order_type = true.
Proof.
  destruct (order_type_shape_ok order_type) eqn:Hshape.
  - split; [reflexivity|intros _].
    destruct order_type as [| | | | | |d]; try discriminate Hshape.
    unfold classify_order_type. rewrite !(tif_is_shape_ok d _ Hshape).
    cbn [py_get].
    destruct (py_eq_str (tif_of d) "Ioc"); [reflexivity|rewrite bind_lift_ok].
    destruct (py_eq_str (tif_of d) "Gtc"); [reflexivity|rewrite bind_lift_ok].
    destruct (py_eq_str (tif_of d) "Alo"); [reflexivity|rewrite bind_lift_ok].
    destruct (lookup "market" d) as [m|]; rewrite bind_lift_ok;
      [destruct (truthy m)|]; reflexivity.
  - split; [|discriminate].
    destruct (tif_is_malformed order_type "Ioc" Hshape) as [e He].
    unfold classify_order_type. rewrite He. discriminate.
Qed.

(** X16: the market label is printed exactly when the time-in-force is none of
    the three known ones and the ["market"] entry is present and truthy;
    an empty object, [None] or a missing entry gives no label. *)
Theorem market_label_iff (d : list (string * value)) :
  order_type_shape_ok (VDict d) = true ->
  (In label_market (stdout (classify_order_type (VDict d)))
   <-> known_tif (tif_of d) = false
       /\ exists m, lookup "market" d = Some m /\ truthy m = true).
Proof.
  intros Hshape. unfold classify_order_type, known_tif.
  rewrite !(tif_is_shape_ok d _ Hshape). cbn [py_get].
  destruct (py_eq_str (tif_of d) "Ioc");
    [cbn; unfold label_ioc, label_market; split;
     [intuition discriminate|intros [H _]; discriminate H]
    |rewrite bind_lift_ok].
  destruct (py_eq_str (tif_of d) "Gtc");
    [cbn; unfold label_gtc, label_market; split;
     [intuition discriminate|intros [H _]; discriminate H]
    |rewrite bind_lift_ok].
  destruct (py_eq_str (tif_of d) "Alo");
    [cbn; unfold label_alo, label_market; split;
     [intuition discriminate|intros [H _]; discriminate H]
    |rewrite bind_lift_ok].
  destruct (lookup "market" d) as [m|]; rewrite bind_lift_ok.
  - destruct (truthy m) eqn:Hm; cbn.
    + split; [intros _; split; [reflexivity|now exists m]|auto].
    + split; [contradiction|]. intros [_ (m' & [= <-] & H)]. congruence.
  - cbn. split; [contradiction|]. intros [_ (m' & H & _)]. discriminate H.
Qed.

Lemma market_label_iff_witness :
  In label_market
    (stdout (classify_order_type
               (VDict [("market", VDict [("slippage", VStr "0.01")])])))
  <-> known_tif (tif_of [("market", VDict [("slippage", VStr "0.01")])]) = false
      /\ exists m, lookup "market" [("market", VDict [("slippage", VStr "0.01")])]
                   = Some m /\ truthy m = true.
Proof.
  apply (market_label_iff [("market", VDict [("slippage", VStr "0.01")])]).
  reflexivity.
Defined.

(** ** Interpreting a result whose status is ["ok"] *)

Lemma report_status_well_formed (i : nat) (status : value) :
  well_formed_status status = true ->
  outcome (report_status i status) = Ok tt
  /\ (List.length (stdout (report_status i status)) <= 1)%nat.
Proof.
  unfold well_formed_status, report_status.
  destruct status as [| | | | | |s]; try discriminate. cbn [py_in py_getitem].
  destruct (lookup "resting" s) as [v|] eqn:Hr.
  - destruct v as [| | | | | |r]; try discriminate. intros _.
    rewrite !bind_lift_ok. cbn [py_get].
    destruct (lookup "oid" r); rewrite bind_lift_ok; cbn;
      split; reflexivity || lia.
  - intros _. rewrite bind_lift_ok.
    destruct (lookup "filled" s); rewrite bind_lift_ok;
      [cbn; split; [reflexivity|lia]|].
    destruct (lookup "error" s); rewrite !bind_lift_ok; cbn;
      split; reflexivity || lia.
Qed.

Lemma report_statuses_ok (statuses : list value) (i : nat) :
  forallb well_formed_status statuses = true ->
  outcome (report_statuses statuses i) = Ok tt.
Proof.
  revert i. induction statuses as [|s rest IH]; intros i Hwf.
  - reflexivity.
  - cbn [forallb] in Hwf. apply andb_true_iff in Hwf as [Hs Hrest].
    cbn [report_statuses]. rewrite outcome_bind.
    destruct (report_status_well_formed i s Hs) as [-> _]. now apply IH.
Qed.

(** X17: when every per-order status is well formed, the loop of lines 191-197
    raises nothing, reports each status under its own position in the
    list, counted from 0, and prints at most one line per status. *)
Theorem report_statuses_well_formed (statuses : list value) (i : nat) :
  forallb well_formed_status statuses = true ->
  outcome (report_statuses statuses i) = Ok tt /\
  stdout (report_statuses statuses i)
  = flat_map (fun p => stdout (report_status (fst p) (snd p)))
      (combine (seq i (List.length statuses)) statuses) /\
  (List.length (stdout (report_statuses statuses i))
   <= List.length statuses)%nat.
Proof.
  revert i. induction statuses as [|s rest IH]; intros i Hwf.
  - cbn. repeat split. lia.
  - cbn [forallb] in Hwf. apply andb_true_iff in Hwf as [Hs Hrest].
    destruct (report_status_well_formed i s Hs) as [Hok Hlen].
    destruct (IH (S i) Hrest) as (IHok & IHout & IHlen).
    cbn [report_statuses]. rewrite outcome_bind, stdout_bind, Hok.
    split; [exact IHok|]. split.
    + cbn. now rewrite IHout.
    + rewrite length_app. cbn [List.length]. lia.
Qed.

Lemma report_result_ok_run (d : list (string * value)) :
  lookup "status" d = Some (VStr "ok") ->
  report_result (VDict d)
  = (outcome (report_placed (VDict d)),
     response_header (VDict d) ++ stdout (report_placed (VDict d))
     ++ match outcome (report_placed (VDict d)) with
        | Ok _ => closing_note
        | Raise _ => []
        end).
Proof.
  intros Hs. unfold report_result. rewrite !bind_print.
  cbn [py_get]. rewrite Hs, bind_lift_ok. cbn [py_eq_str String.eqb].
  change (String.eqb "ok" "ok") with true. cbn iota.
  rewrite outcome_bind, stdout_bind.
  destruct (report_placed (VDict d)) as [[[]|e] out]; reflexivity.
Qed.

(** X18: for an accepted order with well-formed statuses the run of
    [report_result] is: the response section, the success line, the
    status lines, the closing note; it raises nothing. *)
Theorem report_result_placed
  (d resp data : list (string * value)) (statuses : list value) :
  lookup "status" d = Some (VStr "ok") ->
  lookup "response" d = Some (VDict resp) ->
  lookup "data" resp = Some (VDict data) ->
  lookup "statuses" data = Some (VList statuses) ->
  forallb well_formed_status statuses = true ->
  report_result (VDict d)
  = (Ok tt,
     response_header (VDict d)
     ++ line_placed :: stdout (report_statuses statuses 0) ++ closing_note).
Proof.
  intros Hs Hr Hd Hst Hwf.
  pose proof (report_statuses_ok statuses 0 Hwf) as Hok.
  assert (Hplaced : report_placed (VDict d)
                    = (Ok tt, line_placed :: stdout (report_statuses statuses 0))).
  { unfold report_placed. rewrite bind_print. cbn [py_in py_getitem].
    rewrite Hr, !bind_lift_ok. cbn [py_in]. rewrite Hd, !bind_lift_ok.
    cbn [py_getitem py_get]. rewrite Hd, bind_lift_ok.
    cbn [py_get]. rewrite Hst, bind_lift_ok.
    cbn [py_iter]. rewrite bind_lift_ok, Hok. reflexivity. }
  rewrite (report_result_ok_run d Hs), Hplaced. cbn [outcome stdout fst snd].
  now rewrite <- app_comm_cons.
Qed.

(** X19: an accepted order whose result has no ["response"], or whose response
    object has no ["data"], or whose data object has no ["statuses"],
    is reported with the success line alone. *)
Theorem placed_without_statuses (d : list (string * value)) :
  lookup "status" d = Some (VStr "ok") ->
  lookup "response" d = None
  \/ (exists resp, lookup "response" d = Some (VDict resp)
                   /\ lookup "data" resp = None)
  \/ (exists resp data, lookup "response" d = Some (VDict resp)
                        /\ lookup "data" resp = Some (VDict data)
                        /\ lookup "statuses" data = None) ->
  report_result (VDict d)
  = (Ok tt, response_header (VDict d) ++ line_placed :: closing_note).
Proof.
  intros Hs H.
  assert (Hplaced : report_placed (VDict d) = (Ok tt, [line_placed])).
  { unfold report_placed. rewrite bind_print. cbn [py_in py_getitem].
    destruct H as [Hr|[(resp & Hr & Hd)|(resp & data & Hr & Hd & Hst)]];
      rewrite Hr, !bind_lift_ok; [reflexivity| |];
      cbn [py_in]; rewrite Hd, !bind_lift_ok; [reflexivity|].
    cbn [py_getitem py_get]. rewrite Hd, bind_lift_ok.
    cbn [py_get]. rewrite Hst, bind_lift_ok. reflexivity. }
  now rewrite (report_result_ok_run d Hs), Hplaced.
Qed.

(** X20: a textual response under status ["ok"] is searched for the substring
    ["data"]: when the text contains it, line 190 indexes the text with a
    string and the run ends with a [TypeError] after the success line;
    otherwise the run completes normally. *)
Theorem ok_with_text_response (d : list (string * value)) (s : string) :
  lookup "status" d = Some (VStr "ok") ->
  lookup "response" d = Some (VStr s) ->
  report_result (VDict d)
  = if is_substring "data" s
    then (Raise (Raised TypeError [BuiltinMsg TypeError (VStr s)]),
          response_header (VDict d) ++ [line_placed])
    else (Ok tt, response_header (VDict d) ++ line_placed :: closing_note).
Proof.
  intros Hs Hr. rewrite (report_result_ok_run d Hs).
  assert (Hplaced : report_placed (VDict d)
                    = if is_substring "data" s
                      then (Raise (Raised TypeError
                                     [BuiltinMsg TypeError (VStr s)]),
                            [line_placed])
                      else (Ok tt, [line_placed])).
  { unfold report_placed. rewrite bind_print. cbn [py_in py_getitem].
    rewrite Hr, !bind_lift_ok. cbn [py_in]. rewrite bind_lift_ok.
    destruct (is_substring "data" s); reflexivity. }
  rewrite Hplaced. now destruct (is_substring "data" s).
Qed.

(** X21: whatever the result is, its raw dump is printed before it is
    interpreted, and a run that completes normally ends with the closing
    note. *)
Theorem report_result_frame (result : value) :
  (exists rest, stdout (report_result result) = response_header result ++ rest)
  /\ (outcome (report_result result) = Ok tt ->
      exists body, stdout (report_result result)
                   = response_header result ++ body ++ closing_note).
Proof.
  unfold report_result. rewrite !bind_print. cbn [outcome stdout fst snd].
  rewrite outcome_bind, stdout_bind.
  destruct (lift (py_get result "status" VNone)) as [[status|e] out0] eqn:Hst;
    cbn [outcome stdout fst snd].
  - assert (out0 = []) as -> by (unfold lift in Hst; congruence).
    rewrite outcome_bind, stdout_bind.
    set (branch := if py_eq_str status "ok" then report_placed result
                   else report_failed result).
    destruct branch as [[[]|e] out]; cbn [outcome stdout fst snd].
    + split; [eexists; reflexivity|]. intros _. now exists out.
    + split; [eexists; reflexivity|discriminate].
  - split; [eexists; reflexivity|discriminate].
Qed.

Lemma report_statuses_well_formed_witness :
  let statuses := [VDict [("filled", VDict [("oid", VInt 77)])];
                   VDict [("resting", VDict [("oid", VInt 78)])];
                   VDict [("error", VStr "Order too small")]] in
  outcome (report_statuses statuses 0) = Ok tt /\
  stdout (report_statuses statuses 0)
  = flat_map (fun p => stdout (report_status (fst p) (snd p)))
      (combine (seq 0 (List.length statuses)) statuses) /\
  (List.length (stdout (report_statuses statuses 0))
   <= List.length statuses)%nat.
Proof.
  apply (report_statuses_well_formed
           [VDict [("filled", VDict [("oid", VInt 77)])];
            VDict [("resting", VDict [("oid", VInt 78)])];
            VDict [("error", VStr "Order too small")]] 0).
  reflexivity.
Defined.

Lemma report_result_placed_witness :
  report_result (VDict sample_filled)
  = (Ok tt,
     response_header (VDict sample_filled)
     ++ line_placed
        :: stdout (report_statuses
                     [VDict [("filled", VDict [("oid", VInt 77)])];
                      VDict [("resting", VDict [("oid", VInt 78)])];
                      VDict [("error", VStr "Order too small")]] 0)
        ++ closing_note).
Proof.
  eapply (report_result_placed sample_filled); reflexivity.
Defined.

Lemma placed_without_statuses_witness :
  report_result (VDict [("status", VStr "ok")])
  = (Ok tt,
     response_header (VDict [("status", VStr "ok")])
     ++ line_placed :: closing_note).
Proof.
  apply (placed_without_statuses [("status", VStr "ok")]);
    [reflexivity|left; reflexivity].
Defined.

Lemma ok_with_text_response_witness :
  report_result (VDict [("status", VStr "ok"); ("response", VStr "no data")])
  = if is_substring "data" "no data"
    then (Raise (Raised TypeError [BuiltinMsg TypeError (VStr "no data")]),
          response_header
            (VDict [("status", VStr "ok"); ("response", VStr "no data")])
          ++ [line_placed])
    else (Ok tt,
          response_header
            (VDict [("status", VStr "ok"); ("response", VStr "no data")])
          ++ line_placed :: closing_note).
Proof.
  apply (ok_with_text_response
           [("status", VStr "ok"); ("response", VStr "no data")] "no data");
    reflexivity.
Defined.

(** ** The signing smoke test *)

Section SmokeTest.
Variable sdk : SigningSdk.

Lemma test_variant_run (wallet : Wallet) (t : VariantText) (vault : value) :
  test_variant sdk wallet t vault
  = (Ok tt,
     match sign_l1_action sdk wallet action vault 1000 2000 true with
     | Raise e => [failed_line t e]
     | Ok _ =>
         works_line t ::
         match action_hash sdk action vault 1000 2000 with
         | Ok h => [hash_line t h]
         | Raise e => [failed_line t e]
         end
     end).
Proof.
  unfold test_variant.
  destruct (sign_l1_action sdk wallet action vault 1000 2000 true) as [sig|e];
    [rewrite bind_lift_ok, bind_print|reflexivity].
  destruct (action_hash sdk action vault 1000 2000) as [h|e]; reflexivity.
Qed.

(** X22: a variant is reported as working as soon as [sign_l1_action] returned;
    when [action_hash] then raises, the same variant is reported as failed
    right after, and the block still completes normally. *)
Theorem works_then_failed
  (wallet : Wallet) (t : VariantText) (vault sig : value) (e : exn) :
  sign_l1_action sdk wallet action vault 1000 2000 true = Ok sig ->
  action_hash sdk action vault 1000 2000 = Raise e ->
  test_variant sdk wallet t vault = (Ok tt, [works_line t; failed_line t e]).
Proof.
  intros Hsign Hhash. now rewrite test_variant_run, Hsign, Hhash.
Qed.


End SmokeTest.

Lemma works_then_failed_witness :
  test_variant sample_sdk sample_wallet empty_text (VStr "")
  = (Ok tt,
     [works_line empty_text;
      failed_line empty_text (Raised ValueError [Lit "invalid address"])]).
Proof.
  apply (works_then_failed sample_sdk sample_wallet empty_text (VStr "")
           (VDict [("r", VStr "0x1")]));
    reflexivity.
Defined.


(** ** The printed hash prefix *)

Lemma byte_of_hex_of_byte (b : Byte.byte) :
  let n := N_of_ascii (ascii_of_byte b) in
  byte_of_hex (hex_digit (n / 16)) (hex_digit (n mod 16)) = Some b.
Proof. destruct b; vm_compute; reflexivity. Qed.

Lemma hex_cons (b : Byte.byte) (rest : list Byte.byte) :
  hex (b :: rest)
  = String (hex_digit (N_of_ascii (ascii_of_byte b) / 16))
      (String (hex_digit (N_of_ascii (ascii_of_byte b) mod 16)) (hex rest)).
Proof. reflexivity. Qed.

Lemma hex_injective (l1 l2 : list Byte.byte) : hex l1 = hex l2 -> l1 = l2.
Proof.
  revert l2. induction l1 as [|b1 l1 IH]; intros [|b2 l2] H.
  - reflexivity.
  - rewrite hex_cons in H. discriminate H.
  - rewrite hex_cons in H. discriminate H.
  - rewrite !hex_cons in H. injection H as Hhi Hlo Hrest.
    pose proof (byte_of_hex_of_byte b1) as H1.
    pose proof (byte_of_hex_of_byte b2) as H2.
    cbv zeta in H1, H2. rewrite Hhi, Hlo, H2 in H1.
    injection H1 as <-. f_equal. now apply IH.
Qed.

Lemma substring_hex (n : nat) (l : list Byte.byte) :
  substring 0 (n + n) (hex l) = hex (firstn n l).
Proof.
  revert l. induction n as [|n IH]; intros l.
  - cbn. now destruct (hex l).
  - destruct l as [|b l]; [reflexivity|].
    rewrite Nat.add_succ_r, hex_cons. cbn [Nat.add substring firstn].
    now rewrite IH, hex_cons.
Qed.

(** X24: the hash line shows the first ten bytes of the hash and nothing else:
    two hashes give the same line exactly when their first ten bytes
    agree, so equal printed prefixes do not tell that the hashes are
    equal. *)
Theorem hash_line_shows_ten_bytes (t : VariantText) (h1 h2 : list Byte.byte) :
  hash_prefix h1 = hex (firstn 10 h1) /\
  (hash_line t h1 = hash_line t h2 <-> firstn 10 h1 = firstn 10 h2).
Proof.
  assert (Hprefix : forall h, hash_prefix h = hex (firstn 10 h))
    by (intros h; apply (substring_hex 10 h)).
  split; [apply Hprefix|]. unfold hash_line. rewrite !Hprefix. split.
  - intros [= H]. now apply hex_injective.
  - now intros ->.
Qed.
